(** * cvProcessor: the advanced (regex based) extraction engine

    A shallow embedding of [src/services/cvProcessor.ts]: the language
    detector, the section segmenter, the field extractors, the derived
    metrics and the summary generator, together with the part of the
    JavaScript runtime they stand on (UTF-16 strings, [String.prototype]
    helpers and a backtracking regular-expression matcher). *)

From Stdlib Require Import List Bool Arith NArith ZArith QArith Qminmax Lia Sorted.
From Stdlib Require Import String Ascii.
Import ListNotations.

Set Implicit Arguments.
Local Open Scope string_scope.
Local Open Scope list_scope.
Local Open Scope N_scope.

(* ================================================================== *)
(** ** JavaScript strings *)
(* ================================================================== *)

(** A JavaScript string is a sequence of UTF-16 code units. *)
Definition jstring := list N.

Module JS.

(** Source literals are written as Rocq strings (UTF-8 bytes) and decoded
    to code units.  Every literal of the program lies in the Basic
    Multilingual Plane, where a code point is one code unit. *)
Fixpoint utf8_decode (s : string) (need : nat) (acc : N) : jstring :=
  match s with
  | EmptyString => []
  | String a s' =>
      let b := N_of_ascii a in
      match need with
      | O =>
          if b <? 128 then b :: utf8_decode s' 0 0
          else if b <? 224 then utf8_decode s' 1 (b - 192)
          else if b <? 240 then utf8_decode s' 2 (b - 224)
          else utf8_decode s' 3 (b - 240)
      | S n =>
          let acc' := acc * 64 + (b - 128) in
          match n with
          | O => acc' :: utf8_decode s' 0 0
          | S _ => utf8_decode s' n acc'
          end
      end
  end.

Definition lit (s : string) : jstring := utf8_decode s 0 0.

Definition eqb (a b : jstring) : bool :=
  if list_eq_dec N.eq_dec a b then true else false.

Definition nonempty (s : jstring) : bool :=
  match s with [] => false | _ :: _ => true end.

(** *** Character classes of the language specification *)

Definition in_range (lo hi c : N) : bool := (lo <=? c) && (c <=? hi).

Definition isDigit (c : N) : bool := in_range 48 57 c.

Definition isWordChar (c : N) : bool :=
  in_range 97 122 c || in_range 65 90 c || isDigit c || (c =? 95).

(** WhiteSpace and LineTerminator: the set stripped by [trim] and matched
    by the class escape [\s]. *)
Definition isSpace (c : N) : bool :=
  in_range 9 13 c || (c =? 32) || (c =? 160) || (c =? 5760)
  || in_range 8192 8202 c || (c =? 8232) || (c =? 8233) || (c =? 8239)
  || (c =? 8287) || (c =? 12288) || (c =? 65279).

Definition isLineTerminator (c : N) : bool :=
  (c =? 10) || (c =? 13) || (c =? 8232) || (c =? 8233).

(** *** Case mapping

    [toLowerCase] and [toUpperCase] are given on Basic Latin, the Latin-1
    Supplement, the pair OE/oe, and on the code units outside these blocks
    whose image falls inside them (the program compares the results only
    with Basic Latin and Latin-1 literals); every other code unit is left
    as it is. *)
Definition lowerUnit (c : N) : jstring :=
  if in_range 65 90 c then [c + 32]
  else if in_range 192 222 c && negb (c =? 215) then [c + 32]
  else if c =? 338 then [339]
  else if c =? 376 then [255]
  else if c =? 304 then [105; 775]
  else if c =? 8490 then [107]
  else if c =? 8491 then [229]
  else if c =? 7838 then [223]
  else [c].

Definition upperUnit (c : N) : jstring :=
  if in_range 97 122 c then [c - 32]
  else if in_range 224 254 c && negb (c =? 247) then [c - 32]
  else if c =? 255 then [376]
  else if c =? 339 then [338]
  else if c =? 223 then [83; 83]
  else if c =? 181 then [924]
  else if c =? 305 then [73]
  else if c =? 383 then [83]
  else [c].

Definition toLowerCase (s : jstring) : jstring := flat_map lowerUnit s.
Definition toUpperCase (s : jstring) : jstring := flat_map upperUnit s.

(** *** String.prototype helpers *)

Fixpoint trimStart (s : jstring) : jstring :=
  match s with
  | c :: s' => if isSpace c then trimStart s' else s
  | [] => []
  end.

Definition trimEnd (s : jstring) : jstring := rev (trimStart (rev s)).

Definition trim (s : jstring) : jstring := trimEnd (trimStart s).

Fixpoint startsWith (p s : jstring) : bool :=
  match p, s with
  | [], _ => true
  | a :: p', b :: s' => (a =? b) && startsWith p' s'
  | _ :: _, [] => false
  end.

(** [s.indexOf(p)]: the first index at which [p] occurs. *)
Fixpoint indexOf_from (p s : jstring) (i : nat) : option nat :=
  if startsWith p s then Some i
  else match s with
       | [] => None
       | _ :: s' => indexOf_from p s' (S i)
       end.

Definition indexOf (s p : jstring) : option nat := indexOf_from p s 0.

Definition includes (s p : jstring) : bool :=
  match indexOf s p with Some _ => true | None => false end.

Definition includesChar (s : jstring) (c : N) : bool :=
  existsb (N.eqb c) s.

(** [s.split(c)] for a one-character separator: never empty, the empty
    string splits into one empty piece. *)
Fixpoint splitChar (c : N) (s : jstring) : list jstring :=
  match s with
  | [] => [[]]
  | x :: s' =>
      if x =? c then [] :: splitChar c s'
      else match splitChar c s' with
           | [] => [[x]]
           | w :: ws => (x :: w) :: ws
           end
  end.

(** [a.join(sep)] *)
Fixpoint join (sep : jstring) (l : list jstring) : jstring :=
  match l with
  | [] => []
  | [x] => x
  | x :: l' => x ++ sep ++ join sep l'
  end.

(** [s.substring(a, b)] and [a.slice(a, b)] for [0 <= a <= b]. *)
Definition slice {A} (a b : nat) (l : list A) : list A :=
  firstn (b - a) (skipn a l).

(** Decimal printing of an integer, as [Number.prototype.toString] and
    template literals do for integral values. *)
Fixpoint digitsOf (fuel : nat) (n : N) (acc : jstring) : jstring :=
  match fuel with
  | O => acc
  | S f =>
      let acc' := (48 + n mod 10) :: acc in
      if n <? 10 then acc' else digitsOf f (n / 10) acc'
  end.

Definition natToString (n : N) : jstring := digitsOf (S (N.to_nat (N.log2 n))) n [].

Definition intToString (z : Z) : jstring :=
  match z with
  | Zneg p => 45 :: natToString (Npos p)
  | _ => natToString (Z.to_N z)
  end.

(** [parseInt(s)] without a radix: leading white space, an optional
    sign, then decimal digits, or hexadecimal digits after [0x]; [None]
    is NaN. *)
Definition digitValue (radix c : N) : option N :=
  let v := if isDigit c then Some (c - 48)
           else if in_range 97 122 c then Some (c - 87)
           else if in_range 65 90 c then Some (c - 55)
           else None in
  match v with
  | Some d => if d <? radix then Some d else None
  | None => None
  end.

Fixpoint leadingDigits (radix : N) (s : jstring) (acc : option N) : option N :=
  match s with
  | c :: s' =>
      match digitValue radix c with
      | Some d =>
          leadingDigits radix s'
                        (Some (match acc with Some v => v * radix | None => 0 end + d))
      | None => acc
      end
  | [] => acc
  end.

Definition parseMagnitude (s : jstring) : option N :=
  match s with
  | 48 :: x :: s' =>
      if (x =? 120) || (x =? 88) then leadingDigits 16 s' None
      else leadingDigits 10 s None
  | _ => leadingDigits 10 s None
  end.

Definition parseInt (s : jstring) : option Z :=
  match trimStart s with
  | 45 :: s' => option_map (fun v => (- Z.of_N v)%Z) (parseMagnitude s')
  | 43 :: s' => option_map Z.of_N (parseMagnitude s')
  | s' => option_map Z.of_N (parseMagnitude s')
  end.

(** A number that is an integer or NaN, and its [toString]. *)
Definition numToString (n : option Z) : jstring :=
  match n with
  | Some z => intToString z
  | None => [78; 97; 78]
  end.

End JS.

Notation "'js' s" := (JS.lit s) (at level 9, s at level 0, only parsing).

(* ================================================================== *)
(** ** Regular expressions *)
(* ================================================================== *)

Module Regex.

Definition ch (a : ascii) : N := N_of_ascii a.
Arguments ch a%_char.

(** *** Abstract syntax *)

Inductive citem : Type :=
| CChar (c : N)
| CRange (lo hi : N)
| CDigit
| CWord
| CSpace.

Inductive regex : Type :=
| REmpty
| RFail
| RChar (c : N)
| RAny
| RClass (neg : bool) (items : list citem)
| RSeq (a b : regex)
| RAlt (a b : regex)
| RRep (a : regex) (min : nat) (max : option nat) (greedy : bool)
| RGroup (n : nat) (a : regex)
| RBol
| REol
| RWordB
| RNotAhead (a : regex)
| RNotBehind (a : regex).

(** *** Parser for the pattern syntax used by the program

    Literals, [.], classes with ranges and the escapes [\d \w \s],
    escaped punctuation, [\b], [^], [$], alternation, capturing and
    non-capturing groups, negative lookahead, negative lookbehind and the
    quantifiers [* + ? {n} {n,} {n,m}] with their lazy forms. *)

Definition escape_item (e : N) : citem :=
  if e =? ch "d" then CDigit
  else if e =? ch "w" then CWord
  else if e =? ch "s" then CSpace
  else CChar e.

(** The body of a class, after the opening bracket and the optional [^]. *)
Fixpoint parse_class (s : jstring) (acc : list citem) : option (list citem * jstring) :=
  match s with
  | [] => None
  | c :: s1 =>
      if c =? ch "]" then Some (rev acc, s1)
      else if c =? ch "\" then
        match s1 with
        | e :: s2 => parse_class s2 (escape_item e :: acc)
        | [] => None
        end
      else
        match s1 with
        | d :: s2 =>
            if d =? ch "-" then
              match s2 with
              | h :: s3 =>
                  if (h =? ch "]") || (h =? ch "\") then parse_class s1 (CChar c :: acc)
                  else parse_class s3 (CRange c h :: acc)
              | [] => None
              end
            else parse_class s1 (CChar c :: acc)
        | [] => None
        end
  end.

Fixpoint parse_nat (s : jstring) (acc : option nat) : option nat * jstring :=
  match s with
  | c :: s' =>
      if JS.isDigit c
      then parse_nat s' (Some (match acc with Some v => v * 10 | None => O end
                               + N.to_nat (c - 48))%nat)
      else (acc, s)
  | [] => (acc, s)
  end.

(** A quantifier, if one starts here: bounds and the rest of the input. *)
Definition parse_bounds (s : jstring) : option (nat * option nat * jstring) :=
  match s with
  | c :: s1 =>
      if c =? ch "*" then Some (O, None, s1)
      else if c =? ch "+" then Some (1%nat, None, s1)
      else if c =? ch "?" then Some (O, Some 1%nat, s1)
      else if c =? ch "{" then
        match parse_nat s1 None with
        | (Some lo, c2 :: s2) =>
            if c2 =? ch "}" then Some (lo, Some lo, s2)
            else if c2 =? ch "," then
              match parse_nat s2 None with
              | (None, c3 :: s3) => if c3 =? ch "}" then Some (lo, None, s3) else None
              | (Some hi, c3 :: s3) => if c3 =? ch "}" then Some (lo, Some hi, s3) else None
              | _ => None
              end
            else None
        | _ => None
        end
      else None
  | [] => None
  end.

Definition quantify (a : regex) (s : jstring) : regex * jstring :=
  match parse_bounds s with
  | Some (lo, hi, s1) =>
      match s1 with
      | c :: s2 => if c =? ch "?" then (RRep a lo hi false, s2) else (RRep a lo hi true, s1)
      | [] => (RRep a lo hi true, s1)
      end
  | None => (a, s)
  end.

Inductive gkind : Type := KTop | KCapture (n : nat) | KPlain | KNotAhead | KNotBehind.

(** A group under construction: the alternatives already closed and the
    terms of the current one, both most recent first. *)
Record frame : Type := Frame { fkind : gkind; falts : list regex; fseq : list regex }.

Definition seq_of (rs : list regex) : regex :=
  match rs with
  | [] => REmpty
  | r :: rs' => fold_left (fun acc x => RSeq x acc) rs' r
  end.

Definition alt_of (rs : list regex) : regex :=
  match rs with
  | [] => REmpty
  | r :: rs' => fold_left (fun acc x => RAlt x acc) rs' r
  end.

Definition close_frame (f : frame) : regex :=
  let body := alt_of (seq_of (fseq f) :: falts f) in
  match fkind f with
  | KTop | KPlain => body
  | KCapture n => RGroup n body
  | KNotAhead => RNotAhead body
  | KNotBehind => RNotBehind body
  end.

Definition push_term (r : regex) (f : frame) : frame :=
  Frame (fkind f) (falts f) (r :: fseq f).

(** The opening of a group: its kind and the input after the prefix. *)
Definition open_kind (ngroups : nat) (s : jstring) : gkind * jstring :=
  match s with
  | q :: c :: s2 =>
      if q =? ch "?" then
        if c =? ch ":" then (KPlain, s2)
        else if c =? ch "!" then (KNotAhead, s2)
        else if c =? ch "<" then
          match s2 with
          | e :: s3 => if e =? ch "!" then (KNotBehind, s3) else (KCapture (S ngroups), s)
          | [] => (KCapture (S ngroups), s)
          end
        else (KCapture (S ngroups), s)
      else (KCapture (S ngroups), s)
  | _ => (KCapture (S ngroups), s)
  end.

Fixpoint parse_loop (fuel : nat) (s : jstring) (ngroups : nat)
         (cur : frame) (stack : list frame) : option regex :=
  match fuel with
  | O => None
  | S fuel' =>
      match s with
      | [] => match stack with
              | [] => Some (close_frame cur)
              | _ :: _ => None
              end
      | c :: s1 =>
          if c =? ch "(" then
            let '(k, s2) := open_kind ngroups s1 in
            let n' := match k with KCapture n => n | _ => ngroups end in
            parse_loop fuel' s2 n' (Frame k [] []) (cur :: stack)
          else if c =? ch ")" then
            match stack with
            | parent :: stack' =>
                let '(r, s2) := quantify (close_frame cur) s1 in
                parse_loop fuel' s2 ngroups (push_term r parent) stack'
            | [] => None
            end
          else if c =? ch "|" then
            parse_loop fuel' s1 ngroups
                       (Frame (fkind cur) (seq_of (fseq cur) :: falts cur) []) stack
          else if c =? ch "[" then
            let '(neg, s2) :=
              match s1 with
              | x :: s2 => if x =? ch "^" then (true, s2) else (false, s1)
              | [] => (false, s1)
              end in
            match parse_class s2 [] with
            | Some (items, s3) =>
                let '(r, s4) := quantify (RClass neg items) s3 in
                parse_loop fuel' s4 ngroups (push_term r cur) stack
            | None => None
            end
          else if c =? ch "\" then
            match s1 with
            | e :: s2 =>
                if e =? ch "b" then parse_loop fuel' s2 ngroups (push_term RWordB cur) stack
                else
                  let atom := match escape_item e with
                              | CChar x => RChar x
                              | it => RClass false [it]
                              end in
                  let '(r, s3) := quantify atom s2 in
                  parse_loop fuel' s3 ngroups (push_term r cur) stack
            | [] => None
            end
          else if c =? ch "^" then parse_loop fuel' s1 ngroups (push_term RBol cur) stack
          else if c =? ch "$" then parse_loop fuel' s1 ngroups (push_term REol cur) stack
          else if (c =? ch "*") || (c =? ch "+") || (c =? ch "?") then None
          else
            let '(r, s2) := quantify (if c =? ch "." then RAny else RChar c) s1 in
            parse_loop fuel' s2 ngroups (push_term r cur) stack
      end
  end.

Definition parse (src : jstring) : option regex :=
  parse_loop (S (List.length src)) src O (Frame KTop [] []) [].

(** [new RegExp(src)]: a pattern that does not parse is a [SyntaxError] in
    the program and [RFail] here.  The patterns that the program builds at
    run time are checked to parse in [extraction_total], its named literals
    in [named_patterns_wellFormed]. *)
Definition compile (src : jstring) : regex :=
  match parse src with
  | Some r => r
  | None => RFail
  end.

(** *** Matcher

    The backtracking matcher of the language specification, in
    continuation-passing style.  A state is a position in the subject,
    the code unit before it and the code units from it on. *)

Record mstate : Type := MState { pos : nat; prev : option N; rest : jstring }.

(** Captures: group number, with the index and the text of its last match. *)
Definition captures := list (nat * jstring).

Fixpoint capture (n : nat) (cs : captures) : option jstring :=
  match cs with
  | [] => None
  | (k, v) :: cs' => if Nat.eqb k n then Some v else capture n cs'
  end.

Definition uncapture (ns : list nat) (cs : captures) : captures :=
  filter (fun kv => negb (existsb (Nat.eqb (fst kv)) ns)) cs.

Fixpoint groups_in (r : regex) : list nat :=
  match r with
  | RSeq a b | RAlt a b => groups_in a ++ groups_in b
  | RRep a _ _ _ | RNotAhead a | RNotBehind a => groups_in a
  | RGroup n a => n :: groups_in a
  | _ => []
  end.

(** Canonicalize of the specification (flag [i], no flag [u]): the upper
    case of the code unit when that is one code unit, except that a code
    unit outside Basic Latin never folds into it. *)
Definition canonicalize (c : N) : N :=
  match JS.upperUnit c with
  | [u] => if (128 <=? c) && (u <? 128) then c else u
  | _ => c
  end.

(** The code units other than [u] that canonicalize to the canonical [u]. *)
Definition uncanonical (u : N) : list N :=
  if JS.in_range 65 90 u then [u + 32]
  else if JS.in_range 192 222 u && negb (u =? 215) then [u + 32]
  else if u =? 376 then [255]
  else if u =? 338 then [339]
  else if u =? 924 then [181]
  else [].

Definition item_has (it : citem) (c : N) : bool :=
  match it with
  | CChar x => x =? c
  | CRange lo hi => JS.in_range lo hi c
  | CDigit => JS.isDigit c
  | CWord => JS.isWordChar c
  | CSpace => JS.isSpace c
  end.

Definition class_has (ci : bool) (items : list citem) (c : N) : bool :=
  existsb (fun it =>
             item_has it c
             || (ci && (let u := canonicalize c in
                        item_has it u || existsb (item_has it) (uncanonical u))))
          items.

Definition char_eq (ci : bool) (p c : N) : bool :=
  if ci then canonicalize p =? canonicalize c else p =? c.

Definition isWordOpt (o : option N) : bool :=
  match o with Some c => JS.isWordChar c | None => false end.

Definition step (st : mstate) (c : N) (s' : jstring) : mstate :=
  MState (S (pos st)) (Some c) s'.

Definition reached (mx : option nat) (cnt : nat) : bool :=
  match mx with Some n => Nat.leb n cnt | None => false end.

(** The repetition loop of a quantified term, given the matcher of its
    body.  An iteration beyond the minimum that consumes nothing is
    rejected, so at most [mn] plus the number of remaining code units
    iterations can succeed: the loop is given that many turns. *)
Section Repeat.
Variable R : Type.
Variable body : mstate -> captures -> (mstate -> captures -> option R) -> option R.
Variable mn : nat.
Variable mx : option nat.
Variable greedy : bool.
Variable inner : list nat.
Variable k : mstate -> captures -> option R.

Fixpoint repeat_loop (fuel cnt : nat) (st : mstate) (cs : captures) {struct fuel}
    : option R :=
    if greedy then
      match
        match fuel with
        | O => None
        | S fuel' =>
            if reached mx cnt then None
            else body st (uncapture inner cs)
                      (fun st' cs' =>
                         if Nat.leb mn cnt && Nat.eqb (pos st') (pos st) then None
                         else repeat_loop fuel' (S cnt) st' cs')
        end
      with
      | Some x => Some x
      | None => if Nat.leb mn cnt then k st cs else None
      end
    else
      match (if Nat.leb mn cnt then k st cs else None) with
      | Some x => Some x
      | None =>
          match fuel with
          | O => None
          | S fuel' =>
              if reached mx cnt then None
              else body st (uncapture inner cs)
                        (fun st' cs' =>
                           if Nat.leb mn cnt && Nat.eqb (pos st') (pos st) then None
                           else repeat_loop fuel' (S cnt) st' cs')
          end
      end.
End Repeat.

Fixpoint run (ci : bool) (r : regex) (R : Type) (st : mstate) (cs : captures)
         (k : mstate -> captures -> option R) {struct r} : option R :=
  match r with
  | REmpty => k st cs
  | RFail => None
  | RChar p =>
      match rest st with
      | c :: s' => if char_eq ci p c then k (step st c s') cs else None
      | [] => None
      end
  | RAny =>
      match rest st with
      | c :: s' => if JS.isLineTerminator c then None else k (step st c s') cs
      | [] => None
      end
  | RClass neg items =>
      match rest st with
      | c :: s' => if xorb neg (class_has ci items c) then k (step st c s') cs else None
      | [] => None
      end
  | RSeq a b => run ci a st cs (fun st' cs' => run ci b st' cs' k)
  | RAlt a b =>
      match run ci a st cs k with
      | Some x => Some x
      | None => run ci b st cs k
      end
  | RRep a mn mx greedy =>
      repeat_loop (run ci a (R := R)) mn mx greedy (groups_in a) k
                  (S (mn + List.length (rest st))) O st cs
  | RGroup n a =>
      run ci a st cs
          (fun st' cs' =>
             k st' ((n, firstn (pos st' - pos st) (rest st)) :: uncapture [n] cs'))
  | RBol => match prev st with None => k st cs | Some _ => None end
  | REol => match rest st with [] => k st cs | _ :: _ => None end
  | RWordB =>
      if xorb (isWordOpt (prev st)) (isWordOpt (hd_error (rest st)))
      then k st cs else None
  | RNotAhead a =>
      match run ci a st cs (fun _ _ => Some tt) with
      | Some _ => None
      | None => k st cs
      end
  | RNotBehind a =>
      match prev st with
      | None => k st cs
      | Some p =>
          match run ci a (MState (pos st - 1) None (p :: rest st)) cs
                    (fun st' _ => if Nat.eqb (pos st') (pos st) then Some tt else None)
          with
          | Some _ => None
          | None => k st cs
          end
      end
  end.

(** *** RegExp.prototype.exec and friends *)

Record rmatch : Type :=
  RMatch { index : nat; matched : jstring; groups : captures; after : mstate }.

(** [m[n]] of a match array, [None] for [undefined]. *)
Definition group (n : nat) (m : rmatch) : option jstring :=
  match n with
  | O => Some (matched m)
  | _ => capture n (groups m)
  end.

Definition match_here (ci : bool) (r : regex) (st : mstate) : option rmatch :=
  run ci r st []
      (fun st' cs => Some (RMatch (pos st) (firstn (pos st' - pos st) (rest st)) cs st')).

(** The leftmost match at or after a state. *)
Fixpoint exec_from (ci : bool) (r : regex) (p : nat) (pv : option N) (s : jstring)
  : option rmatch :=
  match match_here ci r (MState p pv s) with
  | Some m => Some m
  | None =>
      match s with
      | [] => None
      | c :: s' => exec_from ci r (S p) (Some c) s'
      end
  end.

Definition origin (s : jstring) : mstate := MState O None s.

(** A compiled pattern with its [i] flag. *)
Record regexp : Type := RegExp { body : regex; ignoreCase : bool }.

Definition exec (re : regexp) (s : jstring) : option rmatch :=
  exec_from (ignoreCase re) (body re) O None s.

Definition test (re : regexp) (s : jstring) : bool :=
  match exec re s with Some _ => true | None => false end.

(** All matches of a global pattern, left to right: the array returned by
    [s.match(/.../g)] and the matches visited by an [exec] loop.  After an
    empty match the search resumes one code unit further. *)
Fixpoint matchAll_from (fuel : nat) (re : regexp) (st : mstate) : list rmatch :=
  match fuel with
  | O => []
  | S fuel' =>
      match exec_from (ignoreCase re) (body re) (pos st) (prev st) (rest st) with
      | None => []
      | Some m =>
          m :: (if Nat.eqb (List.length (matched m)) O
                then match rest (after m) with
                     | [] => []
                     | c :: s' => matchAll_from fuel' re (step (after m) c s')
                     end
                else matchAll_from fuel' re (after m))
      end
  end.

Definition matchAll (re : regexp) (s : jstring) : list rmatch :=
  matchAll_from (S (List.length s)) re (origin s).

(** [s.replace(re, by)] without the [g] flag: the first match only. *)
Definition replaceFirst (re : regexp) (by_ : jstring) (s : jstring) : jstring :=
  match exec re s with
  | None => s
  | Some m => firstn (index m) s ++ by_ ++ rest (after m)
  end.

(** [s.replace(re, by)] with the [g] flag. *)
Fixpoint replace_walk (ms : list rmatch) (by_ : jstring) (from : nat) (s : jstring)
  : jstring :=
  match ms with
  | [] => skipn from s
  | m :: ms' =>
      JS.slice from (index m) s ++ by_ ++ replace_walk ms' by_ (pos (after m)) s
  end.

Definition replaceAll (re : regexp) (by_ : jstring) (s : jstring) : jstring :=
  replace_walk (matchAll re s) by_ O s.

(** [s.split(re)] for a pattern that matches no empty string. *)
Fixpoint split_walk (ms : list rmatch) (from : nat) (s : jstring) : list jstring :=
  match ms with
  | [] => [skipn from s]
  | m :: ms' => JS.slice from (index m) s :: split_walk ms' (pos (after m)) s
  end.

Definition split (re : regexp) (s : jstring) : list jstring :=
  match s with
  | [] => match match_here (ignoreCase re) (body re) (origin []) with
          | Some _ => []
          | None => [[]]
          end
  | _ :: _ => split_walk (matchAll re s) O s
  end.

(** A term without [RFail]: the parse of its source succeeded. *)
Fixpoint wellFormed (r : regex) : bool :=
  match r with
  | RFail => false
  | RSeq a b | RAlt a b => wellFormed a && wellFormed b
  | RRep a _ _ _ | RGroup _ a | RNotAhead a | RNotBehind a => wellFormed a
  | _ => true
  end.

(** [st'] lies at or after [st] in the same subject. *)
Definition reach (st st' : mstate) : Prop :=
  (pos st <= pos st')%nat
  /\ (pos st' + List.length (rest st') = pos st + List.length (rest st))%nat.

(** *** What a successful run went through

    [matches ci r st cs st' cs']: the term [r] can take the matcher from
    state [st] with captures [cs] to state [st'] with captures [cs'].
    Lookarounds are recorded only as leaving the state where it is. *)

Section Iterates.
Variable P : mstate -> captures -> mstate -> captures -> Prop.
Variable inner : list nat.
Variable mn : nat.
Variable mx : option nat.

Inductive iterates : nat -> mstate -> captures -> mstate -> captures -> Prop :=
| iterates_stop cnt st cs :
    (mn <= cnt)%nat -> iterates cnt st cs st cs
| iterates_step cnt st cs st1 cs1 st' cs' :
    reached mx cnt = false ->
    P st (uncapture inner cs) st1 cs1 ->
    iterates (S cnt) st1 cs1 st' cs' ->
    iterates cnt st cs st' cs'.
End Iterates.

Fixpoint matches (ci : bool) (r : regex) (st : mstate) (cs : captures)
         (st' : mstate) (cs' : captures) : Prop :=
  match r with
  | REmpty => st' = st /\ cs' = cs
  | RFail => False
  | RChar p =>
      exists c s', rest st = c :: s' /\ char_eq ci p c = true
                   /\ st' = step st c s' /\ cs' = cs
  | RAny =>
      exists c s', rest st = c :: s' /\ JS.isLineTerminator c = false
                   /\ st' = step st c s' /\ cs' = cs
  | RClass neg items =>
      exists c s', rest st = c :: s' /\ xorb neg (class_has ci items c) = true
                   /\ st' = step st c s' /\ cs' = cs
  | RSeq a b =>
      exists st1 cs1, matches ci a st cs st1 cs1 /\ matches ci b st1 cs1 st' cs'
  | RAlt a b => matches ci a st cs st' cs' \/ matches ci b st cs st' cs'
  | RRep a mn mx _ => iterates (matches ci a) (groups_in a) mn mx O st cs st' cs'
  | RGroup n a =>
      exists cs1, matches ci a st cs st' cs1
                  /\ cs' = (n, firstn (pos st' - pos st) (rest st)) :: uncapture [n] cs1
  | RBol => prev st = None /\ st' = st /\ cs' = cs
  | REol => rest st = [] /\ st' = st /\ cs' = cs
  | RWordB =>
      xorb (isWordOpt (prev st)) (isWordOpt (hd_error (rest st))) = true
      /\ st' = st /\ cs' = cs
  | RNotAhead _ | RNotBehind _ => st' = st /\ cs' = cs
  end.

End Regex.

(** [re "..."] is the literal [/.../], [rei "..."] the literal [/.../i]
    (the [g] flag does not change what a pattern matches; the operations
    above say whether one match or all of them are taken). *)
Definition re (src : string) : Regex.regexp :=
  Regex.RegExp (Regex.compile (JS.lit src)) false.
Definition rei (src : string) : Regex.regexp :=
  Regex.RegExp (Regex.compile (JS.lit src)) true.

(* ================================================================== *)
(** ** Containers of the runtime *)
(* ================================================================== *)

Module Coll.

Section Assoc.
Variable V : Type.

  (** A [Map] with string keys: entries in the order in which their keys
      were first set; setting an existing key replaces its value in place. *)
Definition smap := list (string * V).

Fixpoint set (k : string) (v : V) (m : smap) : smap :=
    match m with
    | [] => [(k, v)]
    | (k', v') :: m' =>
        if String.eqb k k' then (k, v) :: m' else (k', v') :: set k v m'
    end.

Fixpoint get (k : string) (m : smap) : option V :=
    match m with
    | [] => None
    | (k', v') :: m' => if String.eqb k k' then Some v' else get k m'
    end.
End Assoc.

Section Sorting.
Variable A : Type.
Variable le : A -> A -> bool.

  (** [Array.prototype.sort] is stable: equal elements keep their order. *)
Fixpoint insert_sorted (x : A) (l : list A) : list A :=
    match l with
    | [] => [x]
    | y :: l' => if le x y then x :: l else y :: insert_sorted x l'
    end.

Definition stable_sort (l : list A) : list A := fold_right insert_sorted [] l.
End Sorting.

(** A [Set] of strings, in insertion order. *)
Definition set_add (x : jstring) (s : list jstring) : list jstring :=
  if existsb (JS.eqb x) s then s else s ++ [x].

(** [a.findIndex(p)], [None] for -1. *)
Fixpoint findIndex {A} (p : A -> bool) (l : list A) (i : nat) : option nat :=
  match l with
  | [] => None
  | x :: l' => if p x then Some i else findIndex p l' (S i)
  end.

(** The elements of an array with their indices. *)
Definition indexed {A} (l : list A) : list (nat * A) :=
  combine (seq 0 (List.length l)) l.

End Coll.

(* ================================================================== *)
(** ** Data model *)
(* ================================================================== *)

Inductive LanguageCode : Type := fr | en | mixed.

Record LanguageProfile : Type := {
  code : LanguageCode;
  confidence : Q;
  frenchScore : nat;
  englishScore : nat
}.

Record Section : Type := {
  start : nat;
  end_ : nat;
  content : jstring
}.

Record ExtractionContext : Type := {
  language : LanguageProfile;
  sections : Coll.smap Section;
  lines : list jstring;
  documentType : jstring
}.

Record PersonalInfo : Type := {
  full_name : jstring;
  position : jstring;
  email : jstring;
  phone : jstring;
  location : jstring;
  linkedin : jstring;
  age : option jstring;
  gender : option jstring
}.

Record ExperienceEntry : Type := {
  exp_position : jstring;
  exp_company : jstring;
  exp_location : jstring;
  startDate : jstring;
  endDate : jstring;
  exp_description : jstring;
  duration : jstring
}.

Record EducationEntry : Type := {
  degree : jstring;
  institution : jstring;
  field_of_study : option jstring;
  start_date : option jstring;
  end_date : option jstring
}.

Record CertificationEntry : Type := {
  cert_name : jstring;
  issuer : jstring;
  cert_date : jstring
}.

Record ProjectEntry : Type := {
  proj_name : jstring;
  proj_description : jstring;
  proj_date : jstring
}.

Record CVMetadata : Type := {
  total_experience_years : Z;
  seniority_level : jstring;
  industry : jstring;
  keywords : list jstring
}.

Record CVExtractionResult : Type := {
  confidence_score : Q;
  photo_detected : bool;
  personal_info : PersonalInfo;
  education : list EducationEntry;
  experience : list ExperienceEntry;
  skills : list jstring;
  languages : list jstring;
  certifications : list CertificationEntry;
  internships : list ProjectEntry;
  metadata : CVMetadata
}.

(* ================================================================== *)
(** ** The extraction engine *)
(* ================================================================== *)

Definition len (s : jstring) : nat := List.length s.


(** Truthiness of an optional string: defined and not empty. *)
Definition truthy (o : option jstring) : bool :=
  match o with Some (_ :: _) => true | _ => false end.

(** [x || d] on strings. *)
Definition orElse (s d : jstring) : jstring :=
  match s with [] => d | _ :: _ => s end.

Definition newline : N := 10.
Definition pipe : N := 124.

(** [text.split('\n')] *)
Definition splitLines (text : jstring) : list jstring := JS.splitChar newline text.

(** *** Language detector *)

Definition frenchKeywords : list jstring := map JS.lit [
  "expérience"; "éducation"; "formation"; "compétences"; "competences";
  "langues"; "certifications"; "projets"; "professionnel"; "développeur";
  "ingénieur"; "université"; "école"; "diplôme"; "licence"; "master";
  "stage"; "mission"; "réalisation"; "responsabilités"; "poste"
].

Definition englishKeywords : list jstring := map JS.lit [
  "experience"; "education"; "skills"; "languages"; "certifications";
  "projects"; "professional"; "developer"; "engineer"; "university";
  "school"; "degree"; "bachelor"; "master"; "internship"; "position";
  "responsibilities"; "achievements"; "role"
].

(** [new RegExp(`\\b${kw}\\b`, flags)] *)
Definition wordPattern (kw : jstring) : Regex.regexp :=
  Regex.RegExp (Regex.compile (js "\b" ++ kw ++ js "\b")) true.

(** The [forEach] over a keyword list: the number of whole-word matches. *)
Definition keywordScore (kws : list jstring) (textLower : jstring) : nat :=
  fold_left (fun score kw => (score + List.length (Regex.matchAll (wordPattern kw) textLower))%nat)
            kws O.

Definition Qltb (x y : Q) : bool := negb (Qle_bool y x).

Definition ofNat (n : nat) : Q := inject_Z (Z.of_nat n).

Definition classify (frenchScore englishScore : nat) : LanguageCode :=
  if Qltb (ofNat englishScore * (3 # 2)) (ofNat frenchScore) then fr
  else if Qltb (ofNat frenchScore * (3 # 2)) (ofNat englishScore) then en
  else mixed.

Definition detectLanguage (text : jstring) : LanguageProfile :=
  let textLower := JS.toLowerCase text in
  let frenchScore := keywordScore frenchKeywords textLower in
  let englishScore := keywordScore englishKeywords textLower in
  let total := (frenchScore + englishScore)%nat in
  let confidence :=
    if Nat.ltb 0 total
    then (ofNat (Nat.max frenchScore englishScore) / ofNat total)%Q
    else (1 # 2)%Q in
  {| code := classify frenchScore englishScore;
     confidence := confidence;
     frenchScore := frenchScore;
     englishScore := englishScore |}.

(** *** Section segmenter *)

Definition isFr (language : LanguageProfile) : bool :=
  match code language with fr => true | _ => false end.

Definition sectionPatterns (language : LanguageProfile) : list (string * Regex.regexp) :=
  let pick (f e : string) := if isFr language then rei f else rei e in
  [ ("experience",
      pick "(?:EXPÉRIENCE|EXPERIENCE PROFESSIONNELLE|PARCOURS PROFESSIONNEL)"
           "(?:EXPERIENCE|PROFESSIONAL EXPERIENCE|WORK HISTORY|EMPLOYMENT)");
    ("education",
      pick "(?:FORMATION|ÉDUCATION|ÉTUDES|PARCOURS ACADÉMIQUE)"
           "(?:EDUCATION|ACADEMIC BACKGROUND|QUALIFICATIONS)");
    ("skills",
      pick "(?:COMPÉTENCES|COMPETENCES|SAVOIR-FAIRE)"
           "(?:SKILLS|COMPETENCIES|TECHNICAL SKILLS|EXPERTISE)");
    ("languages",
      pick "(?:LANGUES)"
           "(?:LANGUAGES)");
    ("certifications",
      pick "(?:CERTIFICATIONS|CERTIFICATS)"
           "(?:CERTIFICATIONS|CERTIFICATES|LICENSES)");
    ("projects",
      pick "(?:PROJETS|RÉALISATIONS)"
           "(?:PROJECTS|PORTFOLIO|KEY PROJECTS)");
    ("summary",
      pick "(?:RÉSUMÉ|PROFIL|À PROPOS)"
           "(?:SUMMARY|PROFILE|ABOUT|OBJECTIVE)") ].

(** A header candidate [{ name, index }]. *)
Definition SectionStart : Type := (string * nat)%type.

(** The nested [forEach]: for each category in declaration order, each
    line (by ascending index) whose trimmed text matches its pattern. *)
Definition findSectionStarts (patterns : list (string * Regex.regexp))
           (rawLines : list jstring) : list SectionStart :=
  flat_map (fun '(name, pattern) =>
              flat_map (fun '(idx, line) =>
                          if Regex.test pattern (JS.trim line) then [(name, idx)] else [])
                       (Coll.indexed rawLines))
           patterns.

(** [sectionStarts.sort((a, b) => a.index - b.index)] *)
Definition sortStarts (l : list SectionStart) : list SectionStart :=
  Coll.stable_sort (fun a b => Nat.leb (snd a) (snd b)) l.

(** The span given to each candidate of the sorted list: up to the next
    candidate, or to the end of the document. *)
Fixpoint spansOf (rawLines : list jstring) (starts : list SectionStart)
  : list (string * Section) :=
  match starts with
  | [] => []
  | (name, s) :: rest =>
      let e := match rest with
               | (_, s') :: _ => s'
               | [] => List.length rawLines
               end in
      (name, {| start := s; end_ := e;
                content := JS.join [newline] (JS.slice s e rawLines) |})
        :: spansOf rawLines rest
  end.

(** [sections.set(name, span)] for each candidate in turn. *)
Definition fillSections (spans : list (string * Section)) : Coll.smap Section :=
  fold_left (fun m '(name, sec) => Coll.set name sec m) spans [].

Definition identifySections (text : jstring) (language : LanguageProfile)
  : Coll.smap Section :=
  let rawLines := splitLines text in
  let sectionStarts := sortStarts (findSectionStarts (sectionPatterns language) rawLines) in
  fillSections (spansOf rawLines sectionStarts).

Definition buildExtractionContext (text documentType : jstring) : ExtractionContext :=
  let lines := filter (fun l => Nat.ltb 0 (len l)) (map JS.trim (splitLines text)) in
  let language := detectLanguage text in
  {| language := language;
     sections := identifySections text language;
     lines := lines;
     documentType := documentType |}.

(** *** Personal information *)

Definition emailPattern : Regex.regexp :=
  re "(?<!\d)([a-zA-Z][\w.+-]*@[a-zA-Z0-9][\w.-]*\.[a-zA-Z]{2,})".

Definition phonePattern : Regex.regexp :=
  rei "(?:Tel|Phone|Mobile|Téléphone|Tél|GSM|Contact)?[\s:]*(\+?\d{10,15})(?!\d*[-]\d{4})".

Definition linkedinPattern : Regex.regexp :=
  rei "(?:linkedin\.com\/in\/|lnkd\.in\/|linkedin:?\s*)([a-zA-Z0-9\-]+)".

Definition groupOr (n : nat) (m : Regex.rmatch) : jstring :=
  match Regex.group n m with Some s => s | None => [] end.

(** The cleaned phone number of a match of [phonePattern]: separators
    removed, then rejected when its length is not within 10 to 15. *)
Definition cleanPhoneOf (phoneMatch : option Regex.rmatch) : jstring :=
  match phoneMatch with
  | Some m =>
      let cleanPhone := JS.trim (Regex.replaceAll (re "[\s.\-()]") [] (groupOr 1 m)) in
      if Nat.ltb (len cleanPhone) 10 || Nat.ltb 15 (len cleanPhone) then []
      else cleanPhone
  | None => []
  end.

Definition excludePatterns : list Regex.regexp := [
  rei "^(?:CURRICULUM|VITAE|CV|RESUME|RÉSUMÉ)";
  rei "\b(?:ENGINEER|MANAGER|DEVELOPER|DÉVELOPPEUR|DIRECTOR|DESIGNER|ARCHITECT|INGÉNIEUR|ANALYST|CONSULTANT|SPECIALIST|COORDINATOR|TECHNICIAN|TECHNICIEN|OFFICER|EXECUTIVE|SUPERVISOR|ASSISTANT|INTERN|LEAD|CHIEF|HEAD|FULL STACK|FRONTEND|BACKEND|GÉNIE|INFORMATIQUE|FABRICATION|MECANIQUE|MÉCANIQUE)\b";
  rei "@|http|www\.|github\.com|linkedin";
  re "^\d+";
  rei "EXPERIENCE|EDUCATION|SKILLS|FORMATION|COMPÉTENCES|COMPETENCES|PROJET|PROJECT|CERTIFICATION";
  re "\d{4}\s*[-–—]\s*\d{4}";
  rei "^\s*fes\s*$";
  re "^[A-Z\s]{20,}$";
  rei "Technologies|Utilisees|Spring|Boot|Security|MySQL|Framework|JPA|Repository"
].

Definition excluded (line : jstring) : bool :=
  existsb (fun p => Regex.test p line) excludePatterns.

Definition wordCountOf (line : jstring) : nat :=
  List.length (Regex.split (re "\s+") line).

Definition between (lo n hi : nat) : bool := Nat.leb lo n && Nat.leb n hi.

(** [word.charAt(0) + word.slice(1).toLowerCase()] *)
Definition capitalizeWord (word : jstring) : jstring :=
  match word with
  | [] => []
  | c :: w => c :: JS.toLowerCase w
  end.

Definition titleCase (line : jstring) : jstring :=
  JS.join (js " ") (map capitalizeWord (Regex.split (re "\s+") line)).

(** Phase 1: a name in capitals, letter-spaced or not. *)
Fixpoint namePhase1 (ls : list jstring) : option jstring :=
  match ls with
  | [] => None
  | l :: ls' =>
      let line := JS.trim l in
      if Nat.ltb (len line) 5 || Nat.ltb 100 (len line) then namePhase1 ls'
      else if excluded line then namePhase1 ls'
      else if Regex.test (re "^([A-ZÀÂÄÆÇÉÈÊËÏÎÔÖŒÙÛÜ]\s){2,}[A-ZÀÂÄÆÇÉÈÊËÏÎÔÖŒÙÛÜ]+$") line
      then Some (JS.trim (Regex.replaceAll (re "\s+") (js " ") line))
      else if Regex.test (re "^([A-ZÀÂÄÆÇÉÈÊËÏÎÔÖŒÙÛÜ]+\s){1,3}[A-ZÀÂÄÆÇÉÈÊËÏÎÔÖŒÙÛÜ]+$") line
              && JS.eqb line (JS.toUpperCase line)
              && between 2 (wordCountOf line) 4 && between 8 (len line) 50
      then Some (titleCase line)
      else namePhase1 ls'
  end.

(** Phase 2: a strict title-case line of two to four words. *)
Fixpoint namePhase2 (ls : list jstring) : option jstring :=
  match ls with
  | [] => None
  | l :: ls' =>
      let line := JS.trim l in
      if Nat.ltb (len line) 5 || Nat.ltb 80 (len line) then namePhase2 ls'
      else if excluded line then namePhase2 ls'
      else if JS.eqb line (JS.toUpperCase line) || JS.eqb line (JS.toLowerCase line)
      then namePhase2 ls'
      else if JS.includesChar line pipe || JS.includesChar line 58 || JS.includesChar line 47
      then namePhase2 ls'
      else if Regex.test (re "^([A-ZÀÂÄÆÇÉÈÊËÏÎÔÖŒÙÛÜ][a-zàâäæçéèêëïîôöœùûü]+(?:[\s-][A-ZÀÂÄÆÇÉÈÊËÏÎÔÖŒÙÛÜ][a-zàâäæçéèêëïîôöœùûü]+){1,3})$") line
              && negb (Regex.test (re "\d") line)
              && between 2 (wordCountOf line) 4
      then Some line
      else namePhase2 ls'
  end.

(** Phase 3: a capitalized mixed-case line near the top. *)
Fixpoint namePhase3 (ls : list jstring) : option jstring :=
  match ls with
  | [] => None
  | l :: ls' =>
      let trimmed := JS.trim l in
      if Nat.ltb (len trimmed) 5 || Nat.ltb 100 (len trimmed) then namePhase3 ls'
      else if excluded trimmed then namePhase3 ls'
      else if Regex.test (re "^[A-ZÀÂÄÆÇÉÈÊËÏÎÔÖŒÙÛÜ]") trimmed
              && Regex.test (re "[a-z]") trimmed
              && Regex.test (re "[\s-]") trimmed
              && between 2 (wordCountOf trimmed) 5
              && negb (Regex.test (re "\d{4}") trimmed)
              && negb (Regex.test (rei "\b(?:the|a|an|is|are|was|were|le|la|les|un|une|des|et|ou|dans|pour|avec|sur)\b") trimmed)
      then Some trimmed
      else namePhase3 ls'
  end.

Definition nameNotFound : jstring := js "Name Not Found".

Definition extractNameMultiPhase (context : ExtractionContext)
           (email phone : option jstring) : jstring :=
  let lines := lines context in
  let searchEndLine :=
    if truthy email || truthy phone then
      match Coll.findIndex
              (fun l =>
                 match email with
                 | Some (_ :: _ as e) =>
                     JS.includes (JS.toLowerCase l) (JS.toLowerCase e)
                 | _ => false
                 end
                 || match phone with
                    | Some (_ :: _ as p) => JS.includes l p
                    | _ => false
                    end)
              lines O
      with
      | Some contactLine => if Nat.ltb 10 contactLine then contactLine else 40%nat
      | None => 40%nat
      end
    else 40%nat in
  match namePhase1 (firstn 15 lines) with
  | Some name => name
  | None =>
      match namePhase2 (firstn searchEndLine lines) with
      | Some name => name
      | None =>
          let topNonSectionLines :=
            filter (fun line =>
                      let trimmed := JS.trim line in
                      Nat.ltb 0 (len trimmed)
                      && negb (Regex.test (rei "^(?:EXPERIENCE|EDUCATION|PROJET|PROJECT|COMPETENCES|SKILLS|CERTIFICATION)") trimmed))
                   (firstn 30 lines) in
          match namePhase3 topNonSectionLines with
          | Some name => name
          | None => nameNotFound
          end
      end
  end.

Definition titleKeywords (language : LanguageProfile) : list jstring :=
  if isFr language
  then map JS.lit ["Développeur"; "Ingénieur"; "Architecte"; "Chef"; "Directeur";
                   "Consultant"; "Analyste"; "Technicien"; "Responsable"; "Manager"]
  else map JS.lit ["Developer"; "Engineer"; "Architect"; "Lead"; "Director";
                   "Manager"; "Consultant"; "Analyst"; "Specialist"; "Designer"].

Fixpoint positionIn (kws : list jstring) (ls : list jstring) : jstring :=
  match ls with
  | [] => []
  | l :: ls' =>
      let line := JS.trim l in
      if (JS.includesChar line pipe || existsb (fun kw => JS.includes line kw) kws)
         && Nat.ltb 10 (len line) && Nat.ltb (len line) 200
         && negb (JS.includesChar line 64)
      then line
      else positionIn kws ls'
  end.

Definition extractPosition (context : ExtractionContext) : jstring :=
  positionIn (titleKeywords (language context)) (firstn 15 (lines context)).

Definition techTerms : list jstring := map JS.lit [
  "Spring"; "Boot"; "React"; "Angular"; "Node"; "Express"; "Django"; "Flask";
  "Laravel"; "Symfony"; "MySQL"; "MongoDB"; "PostgreSQL"; "Redis"; "Docker";
  "Kubernetes"; "AWS"; "Azure"; "GCP"; "JavaScript"; "TypeScript"; "Python";
  "Java"; "PHP"; "Ruby"; "Security"; "Framework"; "Library"
].

Definition validCities : list jstring := map JS.lit [
  "Fès"; "Fes"; "Casablanca"; "Rabat"; "Marrakech"; "Tanger"; "Agadir";
  "Mohammedia"; "Oujda"; "Kenitra"; "Tetouan"; "Paris"; "London"; "New York";
  "Dubai"; "Berlin"; "Madrid"; "Rome"; "Amsterdam"
].

(** Pattern 2 of the location search: a known city alone on a line, or a
    labelled location, within the given lines. *)
Fixpoint locationInTop (ls : list jstring) : option jstring :=
  match ls with
  | [] => None
  | l :: ls' =>
      let trimmed := JS.trim l in
      match find (fun city => JS.eqb (JS.toLowerCase trimmed) (JS.toLowerCase city))
                 validCities with
      | Some matchedCity => Some matchedCity
      | None =>
          match Regex.exec (rei "(?:Location|Adresse|Address|Ville|City)[\s:]+([A-Za-zÀ-ÿ\s,]+)") trimmed with
          | Some m =>
              let location :=
                JS.trim (hd [] (JS.splitChar newline (groupOr 1 m))) in
              if negb (existsb (fun tech => JS.includes location tech) techTerms)
                 && Nat.ltb (len location) 50
              then Some location
              else locationInTop ls'
          | None => locationInTop ls'
          end
      end
  end.

(** The [reduce] that counts the candidates, keys in insertion order. *)
Fixpoint countInto (acc : list (jstring * nat)) (loc : jstring) : list (jstring * nat) :=
  match acc with
  | [] => [(loc, 1%nat)]
  | (k, n) :: acc' =>
      if JS.eqb k loc then (k, S n) :: acc' else (k, n) :: countInto acc' loc
  end.

Definition extractLocation (context : ExtractionContext) : jstring :=
  let lines := lines context in
  let fullText := JS.join [newline] lines in
  let fromCityCountry :=
    match Regex.exec (re "\b([A-Z][a-zà-ÿ]+(?:\s+[A-Z][a-zà-ÿ]+)?),\s*([A-Z][a-zà-ÿ]+(?:\s+[A-Z][a-zà-ÿ]+)?)\b") fullText with
    | Some m =>
        let city := JS.trim (groupOr 1 m) in
        let country := JS.trim (groupOr 2 m) in
        if negb (existsb (fun tech => JS.includes city tech || JS.includes country tech)
                         techTerms)
        then Some (city ++ js ", " ++ country)
        else None
    | None => None
    end in
  match fromCityCountry with
  | Some location => location
  | None =>
      match locationInTop (firstn 20 lines) with
      | Some location => location
      | None =>
          let candidates :=
            filter (fun candidate =>
                      negb (existsb (JS.eqb candidate) techTerms)
                      && Nat.leb 3 (len candidate))
                   (map (groupOr 1)
                        (Regex.matchAll (re "\bl\s+([A-Z][a-zà-ÿ]+)\b") fullText)) in
          let locationCounts := fold_left countInto candidates [] in
          match Coll.stable_sort (fun a b => Nat.leb (snd b) (snd a)) locationCounts with
          | mostCommon :: _ => fst mostCommon
          | [] => []
          end
      end
  end.

Definition extractPersonalInfo (context : ExtractionContext) : PersonalInfo :=
  let fullText := JS.join [newline] (lines context) in
  let emailMatch := Regex.exec emailPattern fullText in
  let phoneMatch := Regex.exec phonePattern fullText in
  let cleanPhone := cleanPhoneOf phoneMatch in
  let fullName :=
    extractNameMultiPhase context (option_map Regex.matched emailMatch)
                          (option_map Regex.matched phoneMatch) in
  let linkedinMatch := Regex.exec linkedinPattern fullText in
  {| full_name := fullName;
     position := extractPosition context;
     email := match emailMatch with Some m => JS.trim (groupOr 1 m) | None => [] end;
     phone := cleanPhone;
     location := extractLocation context;
     linkedin := match linkedinMatch with
                 | Some m => js "https://linkedin.com/in/" ++ groupOr 1 m
                 | None => []
                 end;
     age := None;
     gender := None |}.

(** *** Experience *)

Definition datePatterns : list Regex.regexp := [
  rei "\b(\d{2})\/(\d{4})\s*[-–—]\s*(?:(\d{2})\/(\d{4})|(?:present|current|aujourd'hui|actuel|now))\b";
  rei "\b(\d{4})\s*[-–—]\s*(?:(\d{4})|(?:present|current|aujourd'hui|actuel|now))\b";
  rei "\b(jan|feb|mar|apr|may|jun|jul|aug|sep|oct|nov|dec|janv|févr|mars|avr|mai|juin|juil|août|sept|oct|nov|déc)[a-z]*\.?\s+(\d{4})\s*[-–—]\s*(?:(jan|feb|mar|apr|may|jun|jul|aug|sep|oct|nov|dec|janv|févr|mars|avr|mai|juin|juil|août|sept|oct|nov|déc)[a-z]*\.?\s+)?(\d{4}|present|current|aujourd'hui|actuel)\b"
].

(** [endYear: number | string] *)
Inductive EndYear : Type :=
| EndNumber (n : option Z)
| EndText (s : jstring).

Definition presentText : jstring := js "Present".

Definition endYearToString (e : EndYear) : jstring :=
  match e with
  | EndNumber n => JS.numToString n
  | EndText s => s
  end.

Definition numSub (a b : option Z) : option Z :=
  match a, b with
  | Some x, Some y => Some (x - y)%Z
  | _, _ => None
  end.

(** The start and end year read off a date match, when groups 1 and 2 are
    both set. *)
Definition parseDateMatch (dateMatch : Regex.rmatch) : option (option Z * EndYear) :=
  if truthy (Regex.group 1 dateMatch) && truthy (Regex.group 2 dateMatch) then
    let g1 := groupOr 1 dateMatch in
    let g2 := groupOr 2 dateMatch in
    if Regex.test (re "^\d{4}$") g1 then
      Some (JS.parseInt g1,
            if Regex.test (re "present|current|aujourd'hui|actuel") (JS.toLowerCase g2)
            then EndText presentText
            else EndNumber (JS.parseInt g2))
    else
      let endYear := orElse (groupOr 4 dateMatch) presentText in
      Some (JS.parseInt g2,
            if Regex.test (re "^\d{4}$") endYear
            then EndNumber (JS.parseInt endYear)
            else EndText endYear)
  else None.

(** The backward walk over the (up to five) preceding lines. *)
Fixpoint lookBack (prevs : list jstring) (position company location : jstring)
  : jstring * jstring * jstring :=
  match prevs with
  | [] => (position, company, location)
  | prevLine :: rest =>
      if Regex.test (re "^[-•]") prevLine
         || Regex.test (rei "Technologies|Utilisees|Conception|Développement") prevLine
      then lookBack rest position company location
      else if JS.includesChar prevLine pipe then
        let parts := map JS.trim (JS.splitChar pipe prevLine) in
        (orElse position (nth 0 parts []),
         orElse company (nth 1 parts []),
         orElse location (nth 2 parts []))
      else
        let company' :=
          match Regex.exec (re "\bl\s+([A-Z][A-Za-zÀ-ÿ\s]+?)(?:\s*$)") prevLine with
          | Some m => orElse company (JS.trim (groupOr 1 m))
          | None => company
          end in
        let position' :=
          if negb (JS.nonempty position)
             && Nat.ltb 5 (len prevLine) && Nat.ltb (len prevLine) 150
             && negb (Regex.test (re "\d{4}") prevLine)
             && Regex.test (re "[A-Z]") prevLine
          then prevLine else position in
        lookBack rest position' company' location
  end.

(** The forward walk that collects the description. *)
Fixpoint lookAhead (nexts : list jstring) (description : jstring) (descLineCount : nat)
  : jstring :=
  match nexts with
  | [] => description
  | descLine :: rest =>
      if Regex.test (re "\d{4}\s*[-–—]\s*\d{4}") descLine
         || Regex.test (rei "^(?:EDUCATION|PROJET|CERTIFICATION|COMPETENCES)") descLine
      then description
      else
        let take :=
          Regex.test (re "^[-•]") descLine
          || Regex.test (rei "Technologies|Conception|Développement|Création|Intégration|Implémentation") descLine in
        let description' :=
          if take
          then description ++ JS.trim (Regex.replaceFirst (re "^[-•]\s*") [] descLine) ++ js " "
          else description in
        let descLineCount' := if take then S descLineCount else descLineCount in
        if Nat.leb 5 descLineCount' then description'
        else lookAhead rest description' descLineCount'
  end.

Definition durationOf (currentYear : Z) (startYear : option Z) (endYear : EndYear)
  : jstring :=
  match endYear with
  | EndNumber e => JS.numToString (numSub e startYear) ++ js " years"
  | EndText _ => JS.numToString (numSub (Some currentYear) startYear) ++ js " years"
  end.

(** The entry pushed for a date found while the line counter is [i]. *)
Definition buildExperience (currentYear : Z) (lines : list jstring) (i : nat)
           (startYear : option Z) (endYear : EndYear) : ExperienceEntry :=
  let '(position, company, location) :=
    lookBack (JS.slice (i - 5) i lines) [] [] [] in
  let description :=
    lookAhead (JS.slice (S i) (Nat.min (i + 15) (List.length lines)) lines) [] O in
  {| exp_position := orElse position (js "Position Not Specified");
     exp_company := company;
     exp_location := location;
     startDate := JS.numToString startYear;
     endDate := endYearToString endYear;
     exp_description := JS.trim description;
     duration := durationOf currentYear startYear endYear |}.

(** The [for] over the date patterns on one line.  A match whose groups 1
    and 2 are not both set advances the line counter and goes on with the
    next pattern; the first usable match builds an entry and leaves the
    loop.  Returns the line counter and the entry, if any. *)
Fixpoint tryDatePatterns (currentYear : Z) (patterns : list Regex.regexp)
         (lines : list jstring) (line : jstring) (i : nat)
  : nat * option ExperienceEntry :=
  match patterns with
  | [] => (i, None)
  | pattern :: patterns' =>
      match Regex.exec pattern line with
      | None => tryDatePatterns currentYear patterns' lines line i
      | Some dateMatch =>
          match parseDateMatch dateMatch with
          | Some (startYear, endYear) =>
              (i, Some (buildExperience currentYear lines i startYear endYear))
          | None => tryDatePatterns currentYear patterns' lines line (S i)
          end
      end
  end.

(** The [while (i < lines.length)] loop; every turn advances [i], so
    [List.length lines] turns are enough. *)
Fixpoint experienceLoop (currentYear : Z) (fuel : nat) (lines : list jstring) (i : nat)
  : list ExperienceEntry :=
  match fuel with
  | O => []
  | S fuel' =>
      match nth_error lines i with
      | None => []
      | Some line =>
          if Regex.test (rei "^(?:EXPERIENCE|EXPÉRIENCE|PROFESSIONAL|PARCOURS)") line
          then experienceLoop currentYear fuel' lines (S i)
          else
            let '(i', found) := tryDatePatterns currentYear datePatterns lines line i in
            match found with
            | Some e => e :: experienceLoop currentYear fuel' lines (S i')
            | None => experienceLoop currentYear fuel' lines (S i')
            end
      end
  end.

Definition trimmedLines (content : jstring) : list jstring :=
  filter (fun l => Nat.ltb 0 (len l)) (map JS.trim (splitLines content)).

Definition extractExperienceAdvanced (currentYear : Z) (context : ExtractionContext)
  : list ExperienceEntry :=
  match Coll.get "experience" (sections context) with
  | None => []
  | Some section =>
      let lines := trimmedLines (content section) in
      experienceLoop currentYear (List.length lines) lines O
  end.

(** *** Education *)

Definition degreeKeywordsFr : list jstring :=
  map JS.lit ["Ingénieur"; "Master"; "Licence"; "DUT"; "BTS"; "Diplôme";
              "Doctorat"; "Bachelor"; "Technicien"].

Definition degreeKeywordsEn : list jstring :=
  map JS.lit ["Engineer"; "Master"; "Bachelor"; "Degree"; "Diploma"; "PhD";
              "Doctorate"; "Associate"; "Certificate"].

Definition degreeKeywords (language : LanguageProfile) : list jstring :=
  if isFr language then degreeKeywordsFr else degreeKeywordsEn.

Definition institutionKeywords : list jstring := map JS.lit [
  "Université"; "University"; "École"; "School"; "Institut"; "Institute";
  "Faculté"; "Faculty"; "College"; "ISTA"
].

Definition yearRange : Regex.regexp := re "\d{4}\s*[-–—]\s*\d{4}".

Definition educationOfLine (language : LanguageProfile) (rawLine : jstring)
  : list EducationEntry :=
  let line := JS.trim rawLine in
  if Regex.test (rei "^(?:EDUCATION|FORMATION|ÉDUCATION)") line then []
  else
    let hasDegree := existsb (fun kw => Regex.test (wordPattern kw) line)
                             (degreeKeywords language) in
    let hasInstitution := existsb (fun kw => Regex.test (wordPattern kw) line)
                                  institutionKeywords in
    if hasDegree || hasInstitution then
      let dateMatch := Regex.exec (re "(\d{4})\s*[-–—]\s*(\d{4})") line in
      let '(degree, institution) :=
        if JS.includesChar line pipe then
          let parts := map JS.trim (JS.splitChar pipe line) in
          (orElse (nth 0 parts []) line, nth 1 parts [])
        else
          match Regex.exec
                  (Regex.RegExp
                     (Regex.compile (js "(" ++ JS.join (js "|") institutionKeywords
                                        ++ js ")[^\d|]*")) true) line with
          | Some institutionMatch =>
              let instIndex :=
                match JS.indexOf line (Regex.matched institutionMatch) with
                | Some k => k
                | None => O
                end in
              (JS.trim (firstn instIndex line), JS.trim (Regex.matched institutionMatch))
          | None => (line, [])
          end in
      [ {| degree := JS.trim (Regex.replaceFirst yearRange [] degree);
           institution := JS.trim (Regex.replaceFirst yearRange [] institution);
           field_of_study := None;
           start_date := match dateMatch with Some m => Regex.group 1 m | None => None end;
           end_date := match dateMatch with Some m => Regex.group 2 m | None => None end |} ]
    else [].

Definition extractEducationAdvanced (context : ExtractionContext) : list EducationEntry :=
  match Coll.get "education" (sections context) with
  | None => []
  | Some section =>
      let lines := filter (fun l => JS.nonempty (JS.trim l)) (splitLines (content section)) in
      flat_map (educationOfLine (language context)) lines
  end.

(** *** Skills *)

Definition skillDatabase : list jstring := map JS.lit [
  "JavaScript"; "TypeScript"; "Python"; "Java"; "C\+\+"; "C#"; "PHP"; "Ruby"; "Go"; "Rust";
  "Kotlin"; "Swift"; "Scala"; "Dart"; "R"; "MATLAB"; "Perl"; "Objective-C";
  "React"; "Angular"; "Vue\.js"; "Svelte"; "Next\.js"; "Nuxt"; "Gatsby"; "Ember";
  "Backbone"; "jQuery"; "Redux"; "MobX"; "Vuex";
  "Node\.js"; "Express"; "Django"; "Flask"; "FastAPI"; "Spring"; "Spring Boot";
  "Laravel"; "Symfony"; "ASP\.NET"; "Rails"; "Ruby on Rails"; "Gin"; "Echo";
  "MySQL"; "PostgreSQL"; "MongoDB"; "Redis"; "Elasticsearch"; "Firebase";
  "DynamoDB"; "Oracle"; "SQL Server"; "MariaDB"; "Cassandra"; "Neo4j";
  "SQLite"; "CouchDB"; "Hibernate"; "Sequelize"; "Mongoose"; "Doctrine";
  "TypeORM"; "Prisma"; "Knex";
  "AWS"; "Azure"; "GCP"; "Google Cloud"; "Docker"; "Kubernetes"; "Jenkins";
  "GitLab CI"; "GitHub Actions"; "CircleCI"; "Travis CI"; "Terraform";
  "Ansible"; "Chef"; "Puppet"; "Vagrant";
  "HTML"; "HTML5"; "CSS"; "CSS3"; "SCSS"; "SASS"; "Less"; "Tailwind CSS";
  "Bootstrap"; "Material-UI"; "Ant Design"; "Chakra UI"; "Styled Components";
  "React Native"; "Flutter"; "Ionic"; "Xamarin"; "Swift"; "Kotlin";
  "Android"; "iOS"; "SwiftUI";
  "REST"; "RESTful"; "GraphQL"; "gRPC"; "WebSocket"; "SOAP"; "API";
  "Jest"; "Mocha"; "Jasmine"; "Cypress"; "Selenium"; "JUnit"; "PyTest";
  "TestNG"; "Karma"; "Protractor";
  "Git"; "GitHub"; "GitLab"; "Bitbucket"; "SVN"; "Mercurial";
  "Agile"; "Scrum"; "Kanban"; "Jira"; "Trello"; "Asana"; "Confluence";
  "Microservices"; "Serverless"; "Lambda"; "CI/CD"; "Machine Learning";
  "Deep Learning"; "TensorFlow"; "PyTorch"; "NLP"; "Data Science";
  "Big Data"; "Hadoop"; "Spark"; "Kafka";
  "Figma"; "Sketch"; "Adobe XD"; "Photoshop"; "Illustrator"; "InVision";
  "Développement"; "Programmation"; "Base de données"; "Gestion de projet";
  "Méthodologie Agile"; "Intégration continue"
].

(** [skill.replace(/\\/g, '')] *)
Definition unescapeSkill (skill : jstring) : jstring :=
  filter (fun c => negb (c =? 92)) skill.

(** One [forEach] over the database against a text. *)
Definition addSkillsFrom (text : jstring) (skills : list jstring) : list jstring :=
  fold_left (fun acc skill =>
               if Regex.test (wordPattern skill) text
               then Coll.set_add (unescapeSkill skill) acc
               else acc)
            skillDatabase skills.

Definition extractSkillsAdvanced (context : ExtractionContext) : list jstring :=
  let fullText := JS.join [newline] (lines context) in
  let fromSection :=
    match Coll.get "skills" (sections context) with
    | Some section => addSkillsFrom (content section) []
    | None => []
    end in
  addSkillsFrom fullText fromSection.

(** *** Languages *)

Definition proficiencyPattern : Regex.regexp :=
  rei "\b(English|French|Spanish|German|Arabic|Chinese|Japanese|Portuguese|Italian|Dutch|Russian|Korean|Turkish|Hindi|Anglais|Français|Espagnol|Allemand|Arabe|Chinois|Japonais|Portugais|Italien|Néerlandais|Russe|Coréen|Turc)\b".

Definition langMap : list (jstring * jstring) :=
  map (fun '(k, v) => (JS.lit k, JS.lit v)) [
    ("anglais", "english"); ("français", "french"); ("espagnol", "spanish");
    ("allemand", "german"); ("arabe", "arabic"); ("chinois", "chinese");
    ("japonais", "japanese"); ("portugais", "portuguese"); ("italien", "italian");
    ("néerlandais", "dutch"); ("russe", "russian"); ("coréen", "korean");
    ("turc", "turkish")
  ].

Definition canonicalLanguage (lang : jstring) : jstring :=
  let normalizedLang := JS.toLowerCase lang in
  match find (fun kv => JS.eqb (fst kv) normalizedLang) langMap with
  | Some (_, v) => v
  | None => normalizedLang
  end.

Definition extractLanguagesAdvanced (context : ExtractionContext) : list jstring :=
  let searchText :=
    match Coll.get "languages" (sections context) with
    | Some section => content section
    | None => JS.join [newline] (lines context)
    end in
  fold_left (fun languages m => Coll.set_add (canonicalLanguage (groupOr 1 m)) languages)
            (Regex.matchAll proficiencyPattern searchText) [].

(** *** Certifications *)

Definition certificationOfLine (line : jstring) : list CertificationEntry :=
  let trimmed := JS.trim line in
  if Regex.test (rei "^(?:CERTIFICATIONS?|CERTIFICATS?)") trimmed || Nat.eqb (len trimmed) 0
  then []
  else if Regex.test (re "^[-•]") trimmed then
    let cert := JS.trim (Regex.replaceFirst (re "^[-•]\s*") [] trimmed) in
    if Regex.test (rei "^(?:BACHELOR|MASTER|ENGINEER|INGÉNIEUR|LICENCE|DEGREE|DIPLOMA|UNIVERSITY|UNIVERSITÉ)") cert
    then []
    else if Nat.ltb 3 (len cert) && Nat.ltb (len cert) 300 then
      [ {| cert_name := JS.trim (Regex.replaceFirst (re "\d{4}") [] cert);
           issuer := [];
           cert_date := match Regex.exec (re "(\d{4})") cert with
                        | Some m => groupOr 1 m
                        | None => []
                        end |} ]
    else []
  else [].

Definition extractCertificationsAdvanced (context : ExtractionContext)
  : list CertificationEntry :=
  match Coll.get "certifications" (sections context) with
  | None => []
  | Some section =>
      flat_map certificationOfLine
               (filter (fun l => JS.nonempty (JS.trim l)) (splitLines (content section)))
  end.

(** *** Projects *)

(** The variables of the loop: the projects pushed so far and the project
    under construction. *)
Record ProjectState : Type := {
  projects : list ProjectEntry;
  currentProject : jstring;
  currentDescription : jstring;
  currentDate : jstring
}.

Definition initialProjectState : ProjectState :=
  {| projects := []; currentProject := []; currentDescription := []; currentDate := [] |}.

(** The entry that a flush pushes. *)
Definition flushed (st : ProjectState) : ProjectEntry :=
  {| proj_name := currentProject st;
     proj_description := JS.trim (currentDescription st);
     proj_date := currentDate st |}.

Definition isProjectHeader (trimmed : jstring) : bool :=
  Regex.test (rei "^(?:PROJETS?|PROJECTS?)") trimmed.

Definition isBullet (trimmed : jstring) : bool := Regex.test (re "^[-•]") trimmed.

Definition yearOf (trimmed : jstring) : option jstring :=
  match Regex.exec (re "(\d{4})") trimmed with
  | Some m => Some (groupOr 1 m)
  | None => None
  end.

(** [trimmed.replace(/\d{4}/, '').replace(/[-•]/, '').trim()] *)
Definition projectNameOf (trimmed : jstring) : jstring :=
  JS.trim (Regex.replaceFirst (re "[-•]") [] (Regex.replaceFirst (re "\d{4}") [] trimmed)).

(** One turn of the [for (const line of lines)] loop. *)
Definition projectStep (st : ProjectState) (line : jstring) : ProjectState :=
  let trimmed := JS.trim line in
  if negb (JS.nonempty trimmed) || isProjectHeader trimmed then st
  else
    match yearOf trimmed with
    | Some year =>
        {| projects := if JS.nonempty (currentProject st)
                       then projects st ++ [flushed st] else projects st;
           currentProject := projectNameOf trimmed;
           currentDescription := [];
           currentDate := year |}
    | None =>
        if isBullet trimmed then
          let text := Regex.replaceFirst (re "^[-•]\s*") [] trimmed ++ js " " in
          if JS.nonempty (currentProject st) && JS.nonempty (currentDescription st) then
            {| projects := projects st ++ [flushed st];
               currentProject := [];
               currentDescription := text;
               currentDate := currentDate st |}
          else
            {| projects := projects st;
               currentProject := currentProject st;
               currentDescription := currentDescription st ++ text;
               currentDate := currentDate st |}
        else if JS.nonempty (currentProject st) then
          {| projects := projects st;
             currentProject := currentProject st;
             currentDescription := currentDescription st ++ trimmed ++ js " ";
             currentDate := currentDate st |}
        else st
    end.

(** The flush after the loop. *)
Definition projectFinish (st : ProjectState) : list ProjectEntry :=
  if JS.nonempty (currentProject st) then projects st ++ [flushed st] else projects st.

Definition projectsOfLines (lines : list jstring) : list ProjectEntry :=
  projectFinish (fold_left projectStep lines initialProjectState).

Definition extractProjectsAdvanced (context : ExtractionContext) : list ProjectEntry :=
  match Coll.get "projects" (sections context) with
  | None => []
  | Some section => projectsOfLines (splitLines (content section))
  end.

(** *** Derived metrics *)

Definition calculateConfidenceScore (personalInfo : PersonalInfo)
           (experience : list ExperienceEntry) (education : list EducationEntry)
           (skills : list jstring) : Q :=
  let score := 0%Q in
  let score := if JS.nonempty (full_name personalInfo)
                  && negb (JS.eqb (full_name personalInfo) nameNotFound)
               then (score + (2 # 10))%Q else score in
  let score := if JS.nonempty (email personalInfo) then (score + (15 # 100))%Q else score in
  let score := if JS.nonempty (phone personalInfo) then (score + (1 # 10))%Q else score in
  let score := if Nat.ltb 0 (List.length experience) then (score + (25 # 100))%Q else score in
  let score := if Nat.ltb 0 (List.length education) then (score + (15 # 100))%Q else score in
  let score := if Nat.ltb 5 (List.length skills) then (score + (15 # 100))%Q else score in
  Qmin score (95 # 100).

(** The contribution of one entry to the total, in calendar year
    [currentYear]. *)
Definition experienceYearsOf (currentYear : Z) (exp : ExperienceEntry) : Z :=
  let start := JS.parseInt (startDate exp) in
  let end' :=
    if JS.eqb (endDate exp) presentText
       || JS.eqb (JS.toLowerCase (endDate exp)) (js "present")
    then Some currentYear
    else JS.parseInt (endDate exp) in
  match start, end' with
  | Some s, Some e => if (s <=? e)%Z then (e - s)%Z else 0%Z
  | _, _ => 0%Z
  end.

Definition calculateExperienceYears (currentYear : Z) (experience : list ExperienceEntry)
  : Z :=
  fold_left (fun totalYears exp => (totalYears + experienceYearsOf currentYear exp)%Z)
            experience 0%Z.

Definition estimateSeniority (years : Z) (experience : list ExperienceEntry)
           (education : list EducationEntry) : jstring :=
  let hasAdvancedDegree :=
    existsb (fun e => Regex.test (rei "master|phd|doctorate|ingénieur") (degree e))
            education in
  let hasLeadRole :=
    existsb (fun e => Regex.test (rei "lead|senior|principal|architect|chief|director")
                                 (exp_position e))
            experience in
  if (years =? 0)%Z && Nat.eqb (List.length education) 0 then js "Entry Level"
  else if (years <? 2)%Z && negb hasAdvancedDegree then js "Junior"
  else if (years <? 5)%Z then (if hasLeadRole then js "Mid-Senior" else js "Mid Level")
  else if (years <? 10)%Z then (if hasLeadRole then js "Senior" else js "Mid-Senior")
  else js "Lead/Principal".

Definition industries : list (jstring * list jstring) :=
  map (fun '(name, kws) => (JS.lit name, map JS.lit kws)) [
    ("Software Development",
      ["react"; "angular"; "node"; "python"; "java"; "developer"; "software"]);
    ("Data Science",
      ["machine learning"; "data science"; "tensorflow"; "pytorch"; "nlp"; "analytics"]);
    ("DevOps",
      ["docker"; "kubernetes"; "aws"; "azure"; "terraform"; "jenkins"; "ci/cd"]);
    ("Mobile Development",
      ["react native"; "flutter"; "ios"; "android"; "mobile"]);
    ("Web Development",
      ["html"; "css"; "javascript"; "frontend"; "backend"; "full stack"]);
    ("Cloud Computing",
      ["aws"; "azure"; "gcp"; "cloud"; "serverless"; "lambda"])
  ].

Definition detectIndustry (skills : list jstring) (experience : list ExperienceEntry)
  : jstring :=
  let skillText := JS.toLowerCase (JS.join (js " ") skills) in
  let experienceText :=
    JS.toLowerCase (JS.join (js " ") (map exp_description experience)) in
  let combined := skillText ++ js " " ++ experienceText in
  snd (fold_left
         (fun '(maxScore, detectedIndustry) '(industry, kws) =>
            let score := List.length (filter (fun kw => JS.includes combined kw) kws) in
            if Nat.ltb maxScore score then (score, industry)
            else (maxScore, detectedIndustry))
         industries (O, [])).

(** *** The engine *)

Definition performAdvancedExtraction (currentYear : Z) (text documentType : jstring)
  : CVExtractionResult :=
  let context := buildExtractionContext text documentType in
  let personalInfo := extractPersonalInfo context in
  let experience := extractExperienceAdvanced currentYear context in
  let education := extractEducationAdvanced context in
  let skills := extractSkillsAdvanced context in
  let languages := extractLanguagesAdvanced context in
  let certifications := extractCertificationsAdvanced context in
  let projects := extractProjectsAdvanced context in
  let totalExperienceYears := calculateExperienceYears currentYear experience in
  let seniorityLevel := estimateSeniority totalExperienceYears experience education in
  let industry := detectIndustry skills experience in
  {| confidence_score := calculateConfidenceScore personalInfo experience education skills;
     photo_detected := false;
     personal_info := personalInfo;
     education := education;
     experience := experience;
     skills := skills;
     languages := languages;
     certifications := certifications;
     internships := projects;
     metadata := {| total_experience_years := totalExperienceYears;
                    seniority_level := seniorityLevel;
                    industry := industry;
                    keywords := skills ++ languages |} |}.

(** *** Summary generator *)





(* ================================================================== *)
(** ** Notions used by the statements *)
(* ================================================================== *)

(** The end-to-end scenario document. *)
Definition scenarioText : jstring :=
  JS.join [newline] (map JS.lit [
    "JOHN SMITH";
    "john.smith@example.com";
    "+1234567890";
    "EXPERIENCE";
    "Software Engineer | Acme Corp | NYC";
    "2019 - 2022";
    "- Built scalable APIs"
  ]).

(** The fields of an experience entry that the scenario fixes, position
    apart. *)
Definition experienceFacts (e : ExperienceEntry)
  : jstring * jstring * jstring * jstring * jstring :=
  (exp_company e, exp_location e, startDate e, endDate e, duration e).













(** The projects state machine as the specification words it: a year line
    flushes the project in progress and starts a new one named by the
    year-stripped remainder; every other line is appended to the
    description of the project in progress; the project in progress is
    flushed at the end. *)
Definition specProjectStep (st : list ProjectEntry * option ProjectEntry) (line : jstring)
  : list ProjectEntry * option ProjectEntry :=
  let '(done, current) := st in
  let trimmed := JS.trim line in
  if negb (JS.nonempty trimmed) || isProjectHeader trimmed then st
  else
    match yearOf trimmed with
    | Some year =>
        (match current with Some p => done ++ [p] | None => done end,
         Some {| proj_name := JS.trim (Regex.replaceFirst (re "\d{4}") [] trimmed);
                 proj_description := [];
                 proj_date := year |})
    | None =>
        (done,
         option_map
           (fun p => {| proj_name := proj_name p;
                        proj_description :=
                          proj_description p
                          ++ Regex.replaceFirst (re "^[-•]\s*") [] trimmed ++ js " ";
                        proj_date := proj_date p |})
           current)
    end.

Definition specProjects (lines : list jstring) : list ProjectEntry :=
  let '(done, current) := fold_left specProjectStep lines ([], None) in
  map (fun p => {| proj_name := proj_name p;
                   proj_description := JS.trim (proj_description p);
                   proj_date := proj_date p |})
      (match current with Some p => done ++ [p] | None => done end).

Definition projectsExample : list jstring :=
  map JS.lit ["PROJECTS"; "Website 2021"; "- Built UI"; "- Built API"].




(** A four-digit year, as the experience extractor tests it. *)
Definition isYearText (s : jstring) : bool := Regex.test (re "^\d{4}$") s.

(** A capture of the phone pattern: an optional plus sign, then digits. *)
Definition phoneCapture (plus : bool) (digits : jstring) : jstring :=
  (if plus then [43] else []) ++ digits.

(** The pattern literals that the program names. *)
Definition namedPatterns : list Regex.regexp :=
  [emailPattern; phonePattern; linkedinPattern; proficiencyPattern; yearRange]
  ++ excludePatterns ++ datePatterns
  ++ map snd (sectionPatterns {| code := fr; confidence := 1; frenchScore := 1;
                                 englishScore := 0 |})
  ++ map snd (sectionPatterns {| code := en; confidence := 1; frenchScore := 0;
                                 englishScore := 1 |}).




(** Synthetic documents with ten French keywords and three, respectively
    eight, English ones. *)
Definition frenchLeaning : jstring :=
  List.concat (repeat (js "formation ") 10) ++ List.concat (repeat (js "skills ") 3).

Definition nearTie : jstring :=
  List.concat (repeat (js "formation ") 10) ++ List.concat (repeat (js "skills ") 8).



(** Every project of a list has a name. *)
Definition namedProjects (l : list ProjectEntry) : Prop :=
  Forall (fun p => proj_name p <> []) l.

(** The text of an end year is kept only when it is not a year. *)
Definition endYearOk (ey : EndYear) : Prop :=
  match ey with
  | EndNumber _ => True
  | EndText s => isYearText s = false
  end.

(** An entry as [buildExperience] makes it. *)
Definition builtEntry (currentYear : Z) (e : ExperienceEntry) : Prop :=
  exists lines i startYear endYear,
    e = buildExperience currentYear lines i startYear endYear /\ endYearOk endYear.

(** Experience sections with an open-ended position, started in the past
    and in the future. *)
Definition presentExample : jstring :=
  JS.join [newline]
          (map JS.lit ["EXPERIENCE"; "Developer | Acme | Paris"; "01/2018 - Present"]).

Definition futureStart : jstring :=
  JS.join [newline]
          (map JS.lit ["EXPERIENCE"; "Developer | Acme | Paris"; "01/2030 - Present"]).

(** The entry extracted from [presentExample] in 2026. *)
Definition presentEntry : ExperienceEntry :=
  {| exp_position := js "EXPERIENCE";
     exp_company := js "Acme";
     exp_location := js "Paris";
     startDate := js "2018";
     endDate := js "Present";
     exp_description := [];
     duration := js "8 years" |}.

(** The class of the cleaning pattern of the phone number. *)
Definition separators : list Regex.citem :=
  [Regex.CSpace; Regex.CChar 46; Regex.CChar 45; Regex.CChar 40; Regex.CChar 41].

(** The capturing group of [phonePattern]. *)
Definition phoneGroup : Regex.regex :=
  Regex.RSeq (Regex.RRep (Regex.RChar 43) 0 (Some 1%nat) true)
             (Regex.RRep (Regex.RClass false [Regex.CDigit]) 10 (Some 15%nat) true).

Definition plusFifteen : jstring := js "+123456789012345".
Definition plusTen : jstring := js "+1234567890".

(** The phone extracted from a document. *)
Definition phoneOf (text : jstring) : jstring :=
  phone (extractPersonalInfo (buildExtractionContext text (js "PDF"))).

(* ================================================================== *)
(** ** Proofs *)
(* ================================================================== *)

(** Case analysis on every test of the goal. *)
Ltac split_ifs :=
  repeat (cbv beta iota;
          match goal with
          | |- context [if ?b then _ else _] => destruct b eqn:?
          end);
  cbv beta iota.

(** Boolean tests on code units, as propositions. *)
Ltac bool_hyps :=
  repeat match goal with
         | H : (_ && _)%bool = true |- _ => apply andb_true_iff in H; destruct H
         | H : (_ && _)%bool = false |- _ => apply andb_false_iff in H; destruct H
         | H : (_ || _)%bool = true |- _ => apply orb_true_iff in H; destruct H
         | H : (_ || _)%bool = false |- _ => apply orb_false_iff in H; destruct H
         | H : negb _ = true |- _ => apply negb_true_iff in H
         | H : negb _ = false |- _ => apply negb_false_iff in H
         | H : (_ <=? _)%N = true |- _ => apply N.leb_le in H
         | H : (_ <=? _)%N = false |- _ => apply N.leb_gt in H
         | H : (_ <? _)%N = true |- _ => apply N.ltb_lt in H
         | H : (_ <? _)%N = false |- _ => apply N.ltb_ge in H
         | H : (_ =? _)%N = true |- _ => apply N.eqb_eq in H
         | H : (_ =? _)%N = false |- _ => apply N.eqb_neq in H
         end.

(** *** Language detector *)

Lemma Qltb_lt (x y : Q) : Qltb x y = true <-> (x < y)%Q.
Proof.
  unfold Qltb. rewrite negb_true_iff.
  split; intro H.
  - apply Qnot_le_lt. intro L. apply Qle_bool_iff in L. congruence.
  - destruct (Qle_bool y x) eqn:E; [|reflexivity].
    apply Qle_bool_iff in E. exfalso. exact (Qlt_not_le _ _ H E).
Qed.

(** With scores that are not negative, the two margins exclude each other. *)
Lemma margins_exclusive (f e : nat) :
  (ofNat e * (3 # 2) < ofNat f)%Q -> (ofNat f * (3 # 2) < ofNat e)%Q -> False.
Proof.
  unfold Qlt, ofNat. simpl. lia.
Qed.

Lemma classify_fr (f e : nat) :
  classify f e = fr <-> (ofNat e * (3 # 2) < ofNat f)%Q.
Proof.
  unfold classify.
  destruct (Qltb (ofNat e * (3 # 2)) (ofNat f)) eqn:E1.
  - split; [intros _; now apply Qltb_lt | reflexivity].
  - split.
    + destruct (Qltb (ofNat f * (3 # 2)) (ofNat e)); discriminate.
    + intro H. apply Qltb_lt in H. congruence.
Qed.

Lemma classify_en (f e : nat) :
  classify f e = en <-> (ofNat f * (3 # 2) < ofNat e)%Q.
Proof.
  unfold classify.
  destruct (Qltb (ofNat e * (3 # 2)) (ofNat f)) eqn:E1.
  - split; [discriminate|].
    intro H. apply Qltb_lt in E1. destruct (@margins_exclusive f e E1 H).
  - destruct (Qltb (ofNat f * (3 # 2)) (ofNat e)) eqn:E2.
    + split; [intros _; now apply Qltb_lt | reflexivity].
    + split; [discriminate|]. intro H. apply Qltb_lt in H. congruence.
Qed.

Lemma classify_mixed (f e : nat) :
  classify f e = mixed <->
  ~ (ofNat e * (3 # 2) < ofNat f)%Q /\ ~ (ofNat f * (3 # 2) < ofNat e)%Q.
Proof.
  pose proof (classify_fr f e) as Hf. pose proof (classify_en f e) as He.
  destruct (classify f e) eqn:C.
  - split; [discriminate|]. intros [H _]. destruct H. now apply Hf.
  - split; [discriminate|]. intros [_ H]. destruct H. now apply He.
  - split; [|reflexivity]. intros _. split; intro H.
    + apply Hf in H. discriminate.
    + apply He in H. discriminate.
Qed.

Lemma detectLanguage_code (text : jstring) :
  code (detectLanguage text)
  = classify (frenchScore (detectLanguage text)) (englishScore (detectLanguage text)).
Proof. reflexivity. Qed.

Lemma detectLanguage_confidence (text : jstring) :
  confidence (detectLanguage text)
  = if Nat.ltb 0 (frenchScore (detectLanguage text) + englishScore (detectLanguage text))
    then (ofNat (Nat.max (frenchScore (detectLanguage text))
                         (englishScore (detectLanguage text)))
          / ofNat (frenchScore (detectLanguage text) + englishScore (detectLanguage text)))%Q
    else (1 # 2)%Q.
Proof. reflexivity. Qed.

(** C8: for every text the detector answers [fr] exactly when the French
    score exceeds 1.5 times the English one, [en] exactly when the English
    score exceeds 1.5 times the French one, and [mixed] otherwise; scores
    10 and 3 give [fr], scores 10 and 8 give [mixed], also on documents
    that have these scores. *)
Theorem language_margin (text : jstring) :
  let p := detectLanguage text in
  (code p = fr <-> (ofNat (englishScore p) * (3 # 2) < ofNat (frenchScore p))%Q)
  /\ (code p = en <-> (ofNat (frenchScore p) * (3 # 2) < ofNat (englishScore p))%Q)
  /\ (code p = mixed <->
      ~ (ofNat (englishScore p) * (3 # 2) < ofNat (frenchScore p))%Q
      /\ ~ (ofNat (frenchScore p) * (3 # 2) < ofNat (englishScore p))%Q)
  /\ classify 10 3 = fr
  /\ classify 10 8 = mixed
  /\ (frenchScore (detectLanguage frenchLeaning), englishScore (detectLanguage frenchLeaning),
      code (detectLanguage frenchLeaning)) = (10%nat, 3%nat, fr)
  /\ (frenchScore (detectLanguage nearTie), englishScore (detectLanguage nearTie),
      code (detectLanguage nearTie)) = (10%nat, 8%nat, mixed).
Proof.
  intro p. unfold p. rewrite detectLanguage_code.
  split; [apply classify_fr|].
  split; [apply classify_en|].
  split; [apply classify_mixed|].
  split; [vm_compute; reflexivity|].
  split; [vm_compute; reflexivity|].
  split; vm_compute; reflexivity.
Qed.

(** C3 (amended): for every text in which no keyword of either list
    occurs, the detector returns confidence 0.5 and the code [mixed]. *)
Theorem zero_scores_profile (text : jstring) :
  frenchScore (detectLanguage text) = 0%nat ->
  englishScore (detectLanguage text) = 0%nat ->
  confidence (detectLanguage text) = (1 # 2)%Q /\ code (detectLanguage text) = mixed.
Proof.
  intros Hf He.
  rewrite detectLanguage_confidence, detectLanguage_code, Hf, He.
  split; reflexivity.
Qed.

(** C3, at a text without keywords. *)
Lemma zero_scores_profile_witness :
  confidence (detectLanguage (js "Hello world")) = (1 # 2)%Q
  /\ code (detectLanguage (js "Hello world")) = mixed.
Proof.
  apply (@zero_scores_profile (js "Hello world")); vm_compute; reflexivity.
Defined.

(** C3 as stated fails: a text with both scores zero is not classified
    [en]. *)
Lemma zero_scores_not_english :
  frenchScore (detectLanguage (js "Hello world")) = 0%nat
  /\ englishScore (detectLanguage (js "Hello world")) = 0%nat
  /\ code (detectLanguage (js "Hello world")) <> en.
Proof.
  refine (conj _ (conj _ _)); vm_compute; try reflexivity. discriminate.
Qed.

(** *** Confidence score *)





(** *** End-to-end scenario *)

(** C1 (amended): on the scenario document the engine returns the name
    "John Smith", the email, the phone "+1234567890" with its plus sign,
    and exactly one experience entry, with company "Acme Corp", location
    "NYC", start 2019, end 2022, duration "3 years" and a description
    containing "Built scalable APIs". *)
Theorem scenario_extraction (currentYear : Z) (documentType : jstring) :
  let r := performAdvancedExtraction currentYear scenarioText documentType in
  full_name (personal_info r) = js "John Smith"
  /\ email (personal_info r) = js "john.smith@example.com"
  /\ phone (personal_info r) = js "+1234567890"
  /\ map experienceFacts (experience r)
     = [(js "Acme Corp", js "NYC", js "2019", js "2022", js "3 years")]
  /\ forallb (fun e => JS.includes (exp_description e) (js "Built scalable APIs"))
             (experience r) = true.
Proof.
  intro r. unfold r.
  repeat (refine (conj _ _)); vm_compute; reflexivity.
Qed.

(** C1 as stated fails: the phone is not "1234567890", and the position of
    the entry is not "Software Engineer". *)
Lemma scenario_not_as_claimed :
  phone (personal_info (performAdvancedExtraction 2026 scenarioText (js "PDF")))
  <> js "1234567890"
  /\ map exp_position (experience (performAdvancedExtraction 2026 scenarioText (js "PDF")))
     <> [js "Software Engineer"].
Proof.
  refine (conj _ _); vm_compute; discriminate.
Qed.

(** *** Documents without section headers *)





(** The pattern literals that the program names are well formed. *)
Lemma named_patterns_wellFormed :
  forallb (fun p => Regex.wellFormed (Regex.body p)) namedPatterns = true.
Proof. vm_compute. reflexivity. Qed.

(** *** Stable sorting *)

Section SortFacts.
Variable A : Type.
Variable le : A -> A -> bool.
Hypothesis le_total : forall a b, le a b = true \/ le b a = true.







End SortFacts.

(** *** Section segmenter *)

















(** *** Projects *)

Lemma nonempty_true (s : jstring) : JS.nonempty s = true -> s <> [].
Proof. destruct s; [discriminate|]. intros _ H. discriminate H. Qed.

(** A step pushes only projects that have a name. *)
Lemma projectStep_named (st : ProjectState) (line : jstring) :
  namedProjects (projects st) -> namedProjects (projects (projectStep st line)).
Proof.
  intro H. unfold projectStep. cbv zeta.
  destruct (negb (JS.nonempty (JS.trim line)) || isProjectHeader (JS.trim line));
    [exact H|].
  destruct (yearOf (JS.trim line)).
  - cbn [projects]. destruct (JS.nonempty (currentProject st)) eqn:E; [|exact H].
    apply Forall_app. split; [exact H|].
    constructor; [|constructor]. exact (nonempty_true E).
  - destruct (isBullet (JS.trim line)).
    + destruct (JS.nonempty (currentProject st)) eqn:E; cbn [andb].
      * destruct (JS.nonempty (currentDescription st)); cbn [projects]; [|exact H].
        apply Forall_app. split; [exact H|].
        constructor; [|constructor]. exact (nonempty_true E).
      * exact H.
    + destruct (JS.nonempty (currentProject st)); exact H.
Qed.

Lemma projectRun_named (lines : list jstring) :
  forall st, namedProjects (projects st) ->
             namedProjects (projects (fold_left projectStep lines st)).
Proof.
  induction lines as [|l lines IH]; intros st H; simpl.
  - exact H.
  - apply IH. apply projectStep_named. exact H.
Qed.

Lemma projectsOfLines_named (lines : list jstring) : namedProjects (projectsOfLines lines).
Proof.
  unfold projectsOfLines, projectFinish.
  pose proof (projectRun_named lines initialProjectState (Forall_nil _)) as H.
  destruct (JS.nonempty (currentProject (fold_left projectStep lines initialProjectState)))
    eqn:E; [|exact H].
  apply Forall_app. split; [exact H|].
  constructor; [|constructor]. exact (nonempty_true E).
Qed.

(** C6 (amended): within the projects section blank lines and header
    lines are skipped; a line with four consecutive digits flushes the
    project in progress when it has a name and starts a new one, dated by
    that year and named from the year-stripped remainder, with an empty
    description; a bullet line is appended to the description unless the
    project in progress has a name and a description already, in which
    case that project is flushed and the bullet starts a description that
    belongs to no named project; any other line is appended only when the
    project in progress has a name; when the section ends the project in
    progress is flushed if it has a name; every project returned has a
    name. *)
Theorem project_state_machine (st : ProjectState) (line : jstring) :
  let trimmed := JS.trim line in
  (JS.nonempty trimmed = false \/ isProjectHeader trimmed = true ->
   projectStep st line = st)
  /\ (JS.nonempty trimmed = true -> isProjectHeader trimmed = false ->
      (forall year, yearOf trimmed = Some year ->
         projectStep st line
         = {| projects := if JS.nonempty (currentProject st)
                          then projects st ++ [flushed st] else projects st;
              currentProject := projectNameOf trimmed;
              currentDescription := [];
              currentDate := year |})
      /\ (yearOf trimmed = None -> isBullet trimmed = true ->
          projectStep st line
          = if JS.nonempty (currentProject st) && JS.nonempty (currentDescription st)
            then {| projects := projects st ++ [flushed st];
                    currentProject := [];
                    currentDescription :=
                      Regex.replaceFirst (re "^[-•]\s*") [] trimmed ++ js " ";
                    currentDate := currentDate st |}
            else {| projects := projects st;
                    currentProject := currentProject st;
                    currentDescription :=
                      currentDescription st
                      ++ Regex.replaceFirst (re "^[-•]\s*") [] trimmed ++ js " ";
                    currentDate := currentDate st |})
      /\ (yearOf trimmed = None -> isBullet trimmed = false ->
          projectStep st line
          = if JS.nonempty (currentProject st)
            then {| projects := projects st;
                    currentProject := currentProject st;
                    currentDescription := currentDescription st ++ trimmed ++ js " ";
                    currentDate := currentDate st |}
            else st))
  /\ projectFinish st
     = (if JS.nonempty (currentProject st)
        then projects st ++ [flushed st] else projects st)
  /\ (forall lines,
         projectsOfLines lines
         = projectFinish (fold_left projectStep lines initialProjectState)
         /\ Forall (fun p => proj_name p <> []) (projectsOfLines lines)).
Proof.
  intro trimmed. unfold trimmed.
  split.
  { intros [H|H]; unfold projectStep; cbv zeta; rewrite H.
    - reflexivity.
    - rewrite orb_true_r. reflexivity. }
  split.
  { intros Hn Hh. unfold projectStep. cbv zeta. rewrite Hn, Hh. cbn [negb orb].
    split; [|split].
    - intros year Hy. rewrite Hy. reflexivity.
    - intros Hy Hb. rewrite Hy, Hb. reflexivity.
    - intros Hy Hb. rewrite Hy, Hb. reflexivity. }
  split; [reflexivity|].
  intro lines. split; [reflexivity|apply projectsOfLines_named].
Qed.

(** C6, at a second bullet after a described project: the project is
    flushed with its first bullet only. *)
Lemma project_state_machine_witness :
  JS.nonempty (JS.trim (js "- Built API")) = true
  /\ isProjectHeader (JS.trim (js "- Built API")) = false
  /\ yearOf (JS.trim (js "- Built API")) = None
  /\ isBullet (JS.trim (js "- Built API")) = true
  /\ projects (projectStep {| projects := [];
                             currentProject := js "Website";
                             currentDescription := js "Built UI ";
                             currentDate := js "2021" |} (js "- Built API"))
     = [ {| proj_name := js "Website";
            proj_description := js "Built UI";
            proj_date := js "2021" |} ].
Proof.
  assert (Hn : JS.nonempty (JS.trim (js "- Built API")) = true) by (vm_compute; reflexivity).
  assert (Hh : isProjectHeader (JS.trim (js "- Built API")) = false)
    by (vm_compute; reflexivity).
  assert (Hy : yearOf (JS.trim (js "- Built API")) = None) by (vm_compute; reflexivity).
  assert (Hb : isBullet (JS.trim (js "- Built API")) = true) by (vm_compute; reflexivity).
  refine (conj Hn (conj Hh (conj Hy (conj Hb _)))).
  rewrite (proj1 (proj2 (proj1 (proj2 (project_state_machine
             {| projects := [];
                currentProject := js "Website";
                currentDescription := js "Built UI ";
                currentDate := js "2021" |} (js "- Built API"))) Hn Hh)) Hy Hb).
  vm_compute. reflexivity.
Defined.

(** C6 as stated fails: the second bullet is not appended to the
    description of the project. *)
Lemma second_bullet_not_appended :
  projectsOfLines projectsExample
  = [ {| proj_name := js "Website";
         proj_description := js "Built UI";
         proj_date := js "2021" |} ]
  /\ specProjects projectsExample
     = [ {| proj_name := js "Website";
            proj_description := js "Built UI Built API";
            proj_date := js "2021" |} ]
  /\ projectsOfLines projectsExample <> specProjects projectsExample.
Proof.
  refine (conj _ (conj _ _)); vm_compute; try reflexivity. discriminate.
Qed.

(** *** Summary generator *)










(** *** Numbers and their text *)

Lemma isDigit_cases (c : N) :
  JS.isDigit c = true ->
  (c = 48 \/ c = 49 \/ c = 50 \/ c = 51 \/ c = 52 \/ c = 53 \/ c = 54 \/ c = 55
   \/ c = 56 \/ c = 57)%N.
Proof.
  unfold JS.isDigit, JS.in_range. intro H.
  apply andb_true_iff in H. destruct H as [H1 H2].
  apply N.leb_le in H1. apply N.leb_le in H2. lia.
Qed.

Ltac digit_cases H :=
  apply isDigit_cases in H;
  repeat (destruct H as [H|H]; [subst|]); subst.

Lemma digit_of_mod (n : N) : JS.isDigit (48 + n mod 10) = true.
Proof.
  unfold JS.isDigit, JS.in_range.
  assert (H : (n mod 10 < 10)%N) by (apply N.mod_lt; discriminate).
  generalize dependent (n mod 10)%N. intros d H.
  apply andb_true_iff. split; apply N.leb_le; lia.
Qed.

Lemma digitValue_of_mod (n : N) : JS.digitValue 10 (48 + n mod 10) = Some (n mod 10)%N.
Proof.
  unfold JS.digitValue. rewrite digit_of_mod.
  assert (H : (n mod 10 < 10)%N) by (apply N.mod_lt; discriminate).
  replace (48 + n mod 10 - 48)%N with (n mod 10)%N
    by (generalize dependent (n mod 10)%N; intros; lia).
  apply N.ltb_lt in H. rewrite H. reflexivity.
Qed.

Lemma digitsOf_digits (fuel : nat) :
  forall n acc, Forall (fun c => JS.isDigit c = true) acc ->
                Forall (fun c => JS.isDigit c = true) (JS.digitsOf fuel n acc).
Proof.
  induction fuel as [|f IH]; intros n acc H; simpl.
  - exact H.
  - destruct (n <? 10)%N.
    + constructor; [apply digit_of_mod|exact H].
    + apply IH. constructor; [apply digit_of_mod|exact H].
Qed.

Lemma digitsOf_nonempty (f : nat) (n : N) (acc : jstring) :
  JS.digitsOf (S f) n acc <> [].
Proof.
  revert n acc. induction f as [|f IH]; intros n acc.
  - simpl. destruct (n <? 10)%N; discriminate.
  - change (JS.digitsOf (S (S f)) n acc)
      with (if (n <? 10)%N then (48 + n mod 10)%N :: acc
            else JS.digitsOf (S f) (n / 10) ((48 + n mod 10)%N :: acc)).
    destruct (n <? 10)%N; [discriminate|apply IH].
Qed.

(** Reading back the digits that were printed. *)
Lemma digitsOf_value (f : nat) :
  forall n acc,
    (n < 2 ^ N.of_nat (S f))%N ->
    JS.leadingDigits 10 (JS.digitsOf (S f) n acc) None
    = JS.leadingDigits 10 acc (Some n).
Proof.
  induction f as [|f IH]; intros n acc Hn.
  - change (JS.digitsOf 1 n acc)
      with (if (n <? 10)%N then (48 + n mod 10)%N :: acc else (48 + n mod 10)%N :: acc).
    assert (n < 10)%N by (change (2 ^ N.of_nat 1)%N with 2%N in Hn; lia).
    destruct (n <? 10)%N; cbn [JS.leadingDigits]; rewrite digitValue_of_mod;
      rewrite N.mod_small by assumption; reflexivity.
  - change (JS.digitsOf (S (S f)) n acc)
      with (if (n <? 10)%N then (48 + n mod 10)%N :: acc
            else JS.digitsOf (S f) (n / 10) ((48 + n mod 10)%N :: acc)).
    destruct (n <? 10)%N eqn:E.
    + apply N.ltb_lt in E. cbn [JS.leadingDigits]. rewrite digitValue_of_mod.
      rewrite N.mod_small by assumption. reflexivity.
    + rewrite IH.
      * cbn [JS.leadingDigits]. rewrite digitValue_of_mod.
        f_equal. f_equal. pose proof (N.div_mod n 10). lia.
      * rewrite Nat2N.inj_succ, N.pow_succ_r' in Hn.
        apply N.Div0.div_lt_upper_bound. lia.
Qed.

Lemma natToString_digits (n : N) :
  Forall (fun c => JS.isDigit c = true) (JS.natToString n).
Proof. unfold JS.natToString. apply digitsOf_digits. constructor. Qed.

Lemma natToString_value (n : N) :
  JS.leadingDigits 10 (JS.natToString n) None = Some n.
Proof.
  unfold JS.natToString. rewrite digitsOf_value; [reflexivity|].
  rewrite Nat2N.inj_succ, N2Nat.id.
  destruct n as [|p]; [reflexivity|].
  apply N.log2_spec. reflexivity.
Qed.

Lemma parseMagnitude_digits (s : jstring) :
  Forall (fun c => JS.isDigit c = true) s ->
  JS.parseMagnitude s = JS.leadingDigits 10 s None.
Proof.
  intro H. destruct H as [|c s Hc Hs]; [reflexivity|].
  destruct Hs as [|x s Hx Hs].
  - digit_cases Hc; reflexivity.
  - digit_cases Hc; try reflexivity.
    digit_cases Hx; reflexivity.
Qed.

Lemma parseInt_digits (s : jstring) :
  s <> [] -> Forall (fun c => JS.isDigit c = true) s ->
  JS.parseInt s = option_map Z.of_N (JS.leadingDigits 10 s None).
Proof.
  intros Hne H. rewrite <- (parseMagnitude_digits H).
  destruct H as [|c s Hc Hs]; [congruence|].
  digit_cases Hc; reflexivity.
Qed.

Lemma parseInt_natToString (n : N) : JS.parseInt (JS.natToString n) = Some (Z.of_N n).
Proof.
  rewrite parseInt_digits.
  - rewrite natToString_value. reflexivity.
  - unfold JS.natToString. apply digitsOf_nonempty.
  - apply natToString_digits.
Qed.

Lemma parseInt_intToString (z : Z) : JS.parseInt (JS.intToString z) = Some z.
Proof.
  destruct z as [|p|p].
  - reflexivity.
  - change (JS.intToString (Zpos p)) with (JS.natToString (Npos p)).
    apply parseInt_natToString.
  - change (JS.intToString (Zneg p)) with (45%N :: JS.natToString (Npos p)).
    change (JS.parseInt (45%N :: JS.natToString (Npos p)))
      with (option_map (fun v => (- Z.of_N v)%Z) (JS.parseMagnitude (JS.natToString (Npos p)))).
    rewrite (parseMagnitude_digits (natToString_digits (Npos p))).
    rewrite natToString_value. reflexivity.
Qed.

(** [parseInt] undoes [toString]. *)
Lemma parseInt_numToString (n : option Z) : JS.parseInt (JS.numToString n) = n.
Proof.
  destruct n as [z|]; [apply parseInt_intToString|reflexivity].
Qed.

Lemma intToString_head (z : Z) :
  exists c rest, JS.intToString z = c :: rest /\ (JS.isDigit c = true \/ c = 45%N).
Proof.
  destruct z as [|p|p].
  - exists 48%N, []. split; [reflexivity|left; reflexivity].
  - change (JS.intToString (Zpos p)) with (JS.natToString (Npos p)).
    pose proof (natToString_digits (Npos p)) as H.
    destruct (JS.natToString (Npos p)) as [|c rest] eqn:E.
    + exfalso. revert E. unfold JS.natToString. apply digitsOf_nonempty.
    + exists c, rest. split; [reflexivity|left]. inversion H; assumption.
  - exists 45%N, (JS.natToString (Npos p)). split; [reflexivity|right; reflexivity].
Qed.

Lemma numToString_not_present (n : option Z) : JS.numToString n <> presentText.
Proof.
  destruct n as [z|].
  - destruct (intToString_head z) as [c [rest [E Hc]]].
    unfold JS.numToString. rewrite E. intro H.
    assert (c = 80%N) by (vm_compute in H; congruence).
    subst c. destruct Hc as [Hc|Hc]; [vm_compute in Hc|]; discriminate.
  - vm_compute. discriminate.
Qed.

(** *** Experience entries *)

Lemma parseDateMatch_ok (m : Regex.rmatch) (sy : option Z) (ey : EndYear) :
  parseDateMatch m = Some (sy, ey) -> endYearOk ey.
Proof.
  unfold parseDateMatch.
  destruct (truthy (Regex.group 1 m) && truthy (Regex.group 2 m)); [|discriminate].
  destruct (Regex.test (re "^\d{4}$") (groupOr 1 m)).
  - destruct (Regex.test _ (JS.toLowerCase (groupOr 2 m)));
      intro H; inversion H; subst; simpl; [vm_compute; reflexivity|exact I].
  - destruct (Regex.test (re "^\d{4}$") (orElse (groupOr 4 m) presentText)) eqn:E;
      intro H; inversion H; subst; simpl; [exact I|exact E].
Qed.

Lemma tryDatePatterns_built (Y : Z) (patterns : list Regex.regexp)
      (lines : list jstring) (line : jstring) :
  forall i i' e,
    tryDatePatterns Y patterns lines line i = (i', Some e) -> builtEntry Y e.
Proof.
  induction patterns as [|p ps IH]; intros i i' e; cbn [tryDatePatterns].
  - discriminate.
  - destruct (Regex.exec p line) as [m|]; [|apply IH].
    destruct (parseDateMatch m) as [[sy ey]|] eqn:E; [|apply IH].
    intro H. inversion H; subst.
    exists lines, i', sy, ey. split; [reflexivity|exact (parseDateMatch_ok _ E)].
Qed.

(** Every entry of the loop was made by [buildExperience]. *)
Lemma experienceLoop_built (Y : Z) (lines : list jstring) (fuel : nat) :
  forall i e, In e (experienceLoop Y fuel lines i) -> builtEntry Y e.
Proof.
  induction fuel as [|fuel IH]; intros i e; cbn [experienceLoop].
  - intros [].
  - destruct (nth_error lines i) as [line|]; [|intros []].
    destruct (Regex.test _ line); [apply IH|].
    destruct (tryDatePatterns Y datePatterns lines line i) as [i' found] eqn:E.
    destruct found as [e0|]; [|apply IH].
    intros [H|H]; [subst e0; exact (tryDatePatterns_built _ _ _ _ _ E)|exact (IH _ _ H)].
Qed.

Lemma extractExperienceAdvanced_built (Y : Z) (context : ExtractionContext)
      (e : ExperienceEntry) :
  In e (extractExperienceAdvanced Y context) -> builtEntry Y e.
Proof.
  unfold extractExperienceAdvanced.
  destruct (Coll.get "experience" (sections context)); [|intros []].
  apply experienceLoop_built.
Qed.

Lemma tryDatePatterns_advances (Y : Z) (patterns : list Regex.regexp)
      (lines : list jstring) (line : jstring) :
  forall i, (i <= fst (tryDatePatterns Y patterns lines line i))%nat.
Proof.
  induction patterns as [|p ps IH]; intro i; cbn [tryDatePatterns].
  - simpl. lia.
  - destruct (Regex.exec p line) as [m|]; [|apply IH].
    destruct (parseDateMatch m) as [[sy ey]|]; [simpl; lia|].
    specialize (IH (S i)). lia.
Qed.

(** Once the loop has as many turns as lines are left, further turns
    change nothing. *)
Lemma experienceLoop_fuel (Y : Z) (lines : list jstring) (fuel1 : nat) :
  forall fuel2 i,
    (List.length lines <= i + fuel1)%nat ->
    (List.length lines <= i + fuel2)%nat ->
    experienceLoop Y fuel1 lines i = experienceLoop Y fuel2 lines i.
Proof.
  induction fuel1 as [|fuel1 IH]; intros fuel2 i H1 H2.
  - assert (E : nth_error lines i = None) by (apply nth_error_None; lia).
    destruct fuel2; cbn [experienceLoop]; [reflexivity|]. rewrite E. reflexivity.
  - destruct fuel2 as [|fuel2].
    + assert (E : nth_error lines i = None) by (apply nth_error_None; lia).
      cbn [experienceLoop]. rewrite E. reflexivity.
    + cbn [experienceLoop].
      destruct (nth_error lines i) as [line|]; [|reflexivity].
      destruct (Regex.test _ line); [apply IH; lia|].
      pose proof (tryDatePatterns_advances Y datePatterns lines line i) as Ha.
      destruct (tryDatePatterns Y datePatterns lines line i) as [i' found].
      cbn [fst] in Ha.
      destruct found; [f_equal|]; apply IH; lia.
Qed.

Lemma experienceLoop_fuel_enough (Y : Z) (lines : list jstring) (fuel : nat) :
  (List.length lines <= fuel)%nat ->
  experienceLoop Y fuel lines O = experienceLoop Y (List.length lines) lines O.
Proof.
  intro H. apply experienceLoop_fuel; lia.
Qed.

Lemma buildExperience_dates (Y : Z) lines i sy ey :
  startDate (buildExperience Y lines i sy ey) = JS.numToString sy
  /\ endDate (buildExperience Y lines i sy ey) = endYearToString ey
  /\ duration (buildExperience Y lines i sy ey) = durationOf Y sy ey.
Proof.
  unfold buildExperience.
  destruct (lookBack (JS.slice (i - 5) i lines) [] [] []) as [[p c] l].
  repeat split; reflexivity.
Qed.

Lemma fold_years (Y : Z) (l : list ExperienceEntry) :
  forall acc,
    fold_left (fun totalYears exp => (totalYears + experienceYearsOf Y exp)%Z) l acc
    = (acc + calculateExperienceYears Y l)%Z.
Proof.
  unfold calculateExperienceYears.
  induction l as [|e l IH]; intro acc; simpl.
  - lia.
  - rewrite IH. rewrite (IH (experienceYearsOf Y e)). lia.
Qed.

(** The total is the sum of the contributions of the entries. *)
Lemma calculateExperienceYears_contribution (Y : Z) (l1 l2 : list ExperienceEntry)
      (e : ExperienceEntry) :
  calculateExperienceYears Y (l1 ++ e :: l2)
  = (calculateExperienceYears Y (l1 ++ l2) + experienceYearsOf Y e)%Z.
Proof.
  unfold calculateExperienceYears at 1 2.
  rewrite !fold_left_app. simpl. rewrite !fold_years. lia.
Qed.

(** C9 (amended): for every entry the extractor returns, in calendar year
    Y: when the end date is a four-digit year the duration is "N years"
    with N the end year minus the start year; when the end date is
    "Present" the duration is "(Y - start) years", and the entry adds
    Y - start to the total experience years when its start year is not
    after Y, and nothing otherwise; so an entry that starts in 2018 gets
    the duration "(Y - 2018) years" and adds Y - 2018 when 2018 <= Y. *)
Theorem experience_duration (currentYear : Z) (context : ExtractionContext)
        (e : ExperienceEntry) :
  In e (extractExperienceAdvanced currentYear context) ->
  (isYearText (endDate e) = true ->
   duration e
   = JS.numToString (numSub (JS.parseInt (endDate e)) (JS.parseInt (startDate e)))
     ++ js " years")
  /\ (endDate e = js "Present" ->
      duration e
      = JS.numToString (numSub (Some currentYear) (JS.parseInt (startDate e)))
        ++ js " years"
      /\ (forall startYear,
             JS.parseInt (startDate e) = Some startYear ->
             experienceYearsOf currentYear e
             = if (startYear <=? currentYear)%Z
               then (currentYear - startYear)%Z else 0%Z)
      /\ (forall before after,
             calculateExperienceYears currentYear (before ++ e :: after)
             = (calculateExperienceYears currentYear (before ++ after)
                + experienceYearsOf currentYear e)%Z)
      /\ (startDate e = js "2018" ->
          duration e = JS.intToString (currentYear - 2018) ++ js " years"
          /\ experienceYearsOf currentYear e
             = if (2018 <=? currentYear)%Z then (currentYear - 2018)%Z else 0%Z)).
Proof.
  intro Hin.
  destruct (extractExperienceAdvanced_built _ _ _ Hin) as [lines [i [sy [ey [He Hok]]]]].
  destruct (buildExperience_dates currentYear lines i sy ey) as [Hs [Hd Hu]].
  rewrite <- He in Hs, Hd, Hu.
  rewrite Hs, Hd, Hu, parseInt_numToString.
  split.
  - intro Hy. destruct ey as [n|s]; simpl in *.
    + rewrite parseInt_numToString. reflexivity.
    + congruence.
  - intro Hp. destruct ey as [n|s]; simpl in Hp.
    + destruct (@numToString_not_present n Hp).
    + split; [reflexivity|]. split.
      * intros startYear Hsy. unfold experienceYearsOf.
        rewrite Hs, Hd, parseInt_numToString, Hsy. simpl endYearToString. rewrite Hp.
        reflexivity.
      * split; [intros before after; apply calculateExperienceYears_contribution|].
        intro H18.
        assert (Hsy : sy = Some 2018%Z).
        { pose proof (parseInt_numToString sy) as X.
          rewrite H18 in X. vm_compute in X. symmetry. exact X. }
        subst sy. split; [reflexivity|].
        unfold experienceYearsOf.
        rewrite Hs, Hd, parseInt_numToString. simpl endYearToString. rewrite Hp.
        reflexivity.
Qed.

(** C9, at an entry that started in 2018, read in 2026. *)
Lemma experience_duration_witness :
  In presentEntry
     (extractExperienceAdvanced 2026 (buildExtractionContext presentExample (js "PDF")))
  /\ duration presentEntry = JS.intToString (2026 - 2018) ++ js " years"
  /\ experienceYearsOf 2026 presentEntry = (2026 - 2018)%Z.
Proof.
  assert (H : In presentEntry
                 (extractExperienceAdvanced 2026
                    (buildExtractionContext presentExample (js "PDF"))))
    by (vm_compute; left; reflexivity).
  refine (conj H _).
  destruct (proj2 (experience_duration 2026 _ _ H) eq_refl) as [_ [_ [_ H18]]].
  exact (H18 eq_refl).
Defined.

(** C9 as stated fails: read in 2026, an open-ended entry that starts in
    2030 adds nothing to the total, not 2026 - 2030. *)
Lemma future_start_contributes_nothing :
  map (fun e => (startDate e, endDate e))
      (experience (performAdvancedExtraction 2026 futureStart (js "PDF")))
  = [(js "2030", js "Present")]
  /\ total_experience_years (metadata (performAdvancedExtraction 2026 futureStart (js "PDF")))
     = 0%Z
  /\ (2026 - 2030 <> 0)%Z.
Proof.
  refine (conj _ (conj _ _)); vm_compute; try reflexivity. discriminate.
Qed.


(** *** Phone number *)

(** A class that no code unit of the subject belongs to matches nowhere. *)
Lemma exec_from_class_none (ci : bool) (items : list Regex.citem) (s : jstring) :
  forall p pv,
    forallb (fun c => negb (Regex.class_has ci items c)) s = true ->
    Regex.exec_from ci (Regex.RClass false items) p pv s = None.
Proof.
  induction s as [|c s IH]; intros p pv H.
  - reflexivity.
  - cbn [forallb] in H. apply andb_true_iff in H. destruct H as [Hc Hs].
    apply negb_true_iff in Hc.
    cbn [Regex.exec_from Regex.match_here Regex.run Regex.rest].
    rewrite Hc. cbn [xorb]. apply IH. exact Hs.
Qed.

Lemma replaceAll_class_none (items : list Regex.citem) (by_ s : jstring) :
  forallb (fun c => negb (Regex.class_has false items c)) s = true ->
  Regex.replaceAll (Regex.RegExp (Regex.RClass false items) false) by_ s = s.
Proof.
  intro H. unfold Regex.replaceAll, Regex.matchAll.
  cbn [Regex.matchAll_from Regex.ignoreCase Regex.body Regex.origin Regex.pos Regex.prev
       Regex.rest].
  rewrite (@exec_from_class_none false items s O None H). reflexivity.
Qed.

Lemma separators_pattern :
  re "[\s.\-()]" = Regex.RegExp (Regex.RClass false separators) false.
Proof. vm_compute. reflexivity. Qed.

Lemma digit_not_separator (c : N) :
  JS.isDigit c = true -> negb (Regex.class_has false separators c) = true.
Proof. intro H. digit_cases H; reflexivity. Qed.

Lemma digit_not_space (c : N) : JS.isDigit c = true -> JS.isSpace c = false.
Proof. intro H. digit_cases H; reflexivity. Qed.

Lemma trimStart_id (c : N) (s : jstring) :
  JS.isSpace c = false -> JS.trimStart (c :: s) = c :: s.
Proof. intro H. cbn [JS.trimStart]. rewrite H. reflexivity. Qed.

Lemma trimEnd_id (c : N) (s : jstring) :
  JS.isSpace c = false -> JS.trimEnd (s ++ [c]) = s ++ [c].
Proof.
  intro H. unfold JS.trimEnd. rewrite rev_app_distr. cbn [rev app].
  rewrite (@trimStart_id c (rev s) H). cbn [rev]. rewrite rev_involutive. reflexivity.
Qed.

(** Cleaning leaves a capture of the phone pattern as it is. *)
Lemma phoneCapture_clean (plus : bool) (digits : jstring) :
  forallb JS.isDigit digits = true -> digits <> [] ->
  JS.trim (Regex.replaceAll (re "[\s.\-()]") [] (phoneCapture plus digits))
  = phoneCapture plus digits.
Proof.
  intros Hd Hne.
  rewrite separators_pattern, replaceAll_class_none.
  - destruct (exists_last Hne) as [ds [d E]]. subst digits.
    rewrite forallb_app in Hd. apply andb_true_iff in Hd. destruct Hd as [Hds Hd].
    cbn [forallb] in Hd. rewrite andb_true_r in Hd.
    unfold JS.trim, phoneCapture.
    destruct plus.
    + cbn [app]. rewrite trimStart_id by reflexivity.
      change (43%N :: ds ++ [d]) with ((43%N :: ds) ++ [d]).
      apply trimEnd_id. apply digit_not_space. exact Hd.
    + cbn [app]. destruct ds as [|d0 ds].
      * cbn [app]. rewrite trimStart_id by (apply digit_not_space; exact Hd).
        apply (@trimEnd_id d []). apply digit_not_space. exact Hd.
      * cbn [forallb] in Hds. apply andb_true_iff in Hds. destruct Hds as [Hd0 _].
        change ((d0 :: ds) ++ [d]) with (d0 :: ds ++ [d]).
        rewrite trimStart_id by (apply digit_not_space; exact Hd0).
        change (d0 :: ds ++ [d]) with ((d0 :: ds) ++ [d]).
        apply trimEnd_id. apply digit_not_space. exact Hd.
  - unfold phoneCapture. rewrite forallb_app. apply andb_true_iff. split.
    + destruct plus; reflexivity.
    + clear Hne. induction digits as [|c ds IH]; [reflexivity|].
      cbn [forallb] in *. apply andb_true_iff in Hd. destruct Hd as [Hc Hd].
      rewrite (@digit_not_separator c Hc). exact (IH Hd).
Qed.

(** The validation counts the plus sign: a capture is rejected exactly when
    it is a plus sign followed by fifteen digits. *)
Lemma cleanPhoneOf_capture (phoneMatch : Regex.rmatch) (plus : bool) (digits : jstring) :
  Regex.group 1 phoneMatch = Some (phoneCapture plus digits) ->
  forallb JS.isDigit digits = true ->
  (10 <= List.length digits <= 15)%nat ->
  cleanPhoneOf (Some phoneMatch)
  = (if plus && Nat.eqb (List.length digits) 15 then [] else phoneCapture plus digits).
Proof.
  intros Hg Hd Hl.
  unfold cleanPhoneOf, groupOr. rewrite Hg. cbv zeta.
  rewrite phoneCapture_clean; [|exact Hd|destruct digits; [simpl in Hl; lia|discriminate]].
  unfold len, phoneCapture. rewrite length_app.
  destruct plus; cbn [List.length andb Nat.add].
  - destruct (Nat.eqb (List.length digits) 15) eqn:E.
    + apply Nat.eqb_eq in E. rewrite E. reflexivity.
    + apply Nat.eqb_neq in E.
      assert (X : Nat.ltb (S (List.length digits)) 10 = false) by (apply Nat.ltb_ge; lia).
      assert (X' : Nat.ltb 15 (S (List.length digits)) = false) by (apply Nat.ltb_ge; lia).
      rewrite X, X'. reflexivity.
  - assert (X : Nat.ltb (List.length digits) 10 = false) by (apply Nat.ltb_ge; lia).
    assert (X' : Nat.ltb 15 (List.length digits) = false) by (apply Nat.ltb_ge; lia).
    rewrite X, X'. reflexivity.
Qed.

Module RegexFacts.
Import Regex.

(** *** Soundness of the matcher

    Whatever the matcher returns was reached by calling its continuation
    on a state that the term leads to. *)

Section LoopSound.
Variable R : Type.
Variable body : mstate -> captures -> (mstate -> captures -> option R) -> option R.
Variable P : mstate -> captures -> mstate -> captures -> Prop.
Hypothesis body_sound :
  forall st cs k x, body st cs k = Some x ->
                    exists st' cs', P st cs st' cs' /\ k st' cs' = Some x.
Variable mn : nat.
Variable mx : option nat.
Variable inner : list nat.
Variable k : mstate -> captures -> option R.

Lemma repeat_iteration_sound (greedy : bool) (x : R) (fuel cnt : nat)
      (st : mstate) (cs : captures) :
  (forall st1 cs1,
      repeat_loop body mn mx greedy inner k fuel (S cnt) st1 cs1 = Some x ->
      exists st' cs',
        iterates P inner mn mx (S cnt) st1 cs1 st' cs' /\ k st' cs' = Some x) ->
  reached mx cnt = false ->
  body st (uncapture inner cs)
       (fun st' cs' =>
          if Nat.leb mn cnt && Nat.eqb (pos st') (pos st) then None
          else repeat_loop body mn mx greedy inner k fuel (S cnt) st' cs') = Some x ->
  exists st' cs', iterates P inner mn mx cnt st cs st' cs' /\ k st' cs' = Some x.
Proof.
  intros IH Hr H.
  apply body_sound in H. destruct H as [st1 [cs1 [HP H]]].
  destruct (Nat.leb mn cnt && Nat.eqb (pos st1) (pos st)); [discriminate|].
  destruct (IH _ _ H) as [st' [cs' [Hi Hk]]].
  exists st', cs'. split; [|exact Hk].
  eapply iterates_step; eassumption.
Qed.

Lemma repeat_stop_sound (x : R) (cnt : nat) (st : mstate) (cs : captures) :
  (if Nat.leb mn cnt then k st cs else None) = Some x ->
  exists st' cs', iterates P inner mn mx cnt st cs st' cs' /\ k st' cs' = Some x.
Proof.
  destruct (Nat.leb mn cnt) eqn:E; [|discriminate].
  intro H. exists st, cs. split; [|exact H].
  apply iterates_stop. apply Nat.leb_le. exact E.
Qed.

Lemma repeat_loop_sound (greedy : bool) (x : R) (fuel : nat) :
  forall cnt st cs,
    repeat_loop body mn mx greedy inner k fuel cnt st cs = Some x ->
    exists st' cs', iterates P inner mn mx cnt st cs st' cs' /\ k st' cs' = Some x.
Proof.
  induction fuel as [|fuel IH]; intros cnt st cs; cbn [repeat_loop].
  - destruct greedy.
    + apply repeat_stop_sound.
    + destruct (if Nat.leb mn cnt then k st cs else None) eqn:E; [|discriminate].
      intro H. rewrite <- H in *. apply repeat_stop_sound. exact E.
  - destruct greedy.
    + destruct (reached mx cnt) eqn:Er; [apply repeat_stop_sound|].
      match goal with
      | |- match ?b with _ => _ end = _ -> _ => destruct b as [y|] eqn:E
      end.
      * intro H. inversion H; subst y.
        eapply repeat_iteration_sound; [intros st1 cs1; apply IH|exact Er|exact E].
      * apply repeat_stop_sound.
    + destruct (if Nat.leb mn cnt then k st cs else None) eqn:E.
      * intro H. rewrite <- H in *. apply repeat_stop_sound. exact E.
      * destruct (reached mx cnt) eqn:Er; [discriminate|].
        intro H.
        eapply repeat_iteration_sound; [intros st1 cs1; apply IH|exact Er|exact H].
Qed.
End LoopSound.

Lemma run_sound (ci : bool) (r : regex) :
  forall (R : Type) st cs (k : mstate -> captures -> option R) x,
    run ci r st cs k = Some x ->
    exists st' cs', matches ci r st cs st' cs' /\ k st' cs' = Some x.
Proof.
  induction r as [| |p| |neg items|a IHa b IHb|a IHa b IHb|a IHa mn mx greedy
                  |n a IHa| | | |a IHa|a IHa];
    intros R st cs k x; cbn [run matches].
  - intro H. exists st, cs. auto.
  - discriminate.
  - destruct (rest st) as [|c s'] eqn:E; [discriminate|].
    destruct (char_eq ci p c) eqn:Ec; [|discriminate].
    intro H. exists (step st c s'), cs. split; [|exact H]. exists c, s'. auto.
  - destruct (rest st) as [|c s'] eqn:E; [discriminate|].
    destruct (JS.isLineTerminator c) eqn:Ec; [discriminate|].
    intro H. exists (step st c s'), cs. split; [|exact H]. exists c, s'. auto.
  - destruct (rest st) as [|c s'] eqn:E; [discriminate|].
    destruct (xorb neg (class_has ci items c)) eqn:Ec; [|discriminate].
    intro H. exists (step st c s'), cs. split; [|exact H]. exists c, s'. auto.
  - intro H. apply IHa in H. destruct H as [st1 [cs1 [Ha H]]].
    apply IHb in H. destruct H as [st' [cs' [Hb H]]].
    exists st', cs'. split; [|exact H]. exists st1, cs1. auto.
  - destruct (run ci a st cs k) as [y|] eqn:E.
    + intro H. inversion H; subst y. apply IHa in E.
      destruct E as [st' [cs' [Ha E]]]. exists st', cs'. auto.
    + intro H. apply IHb in H. destruct H as [st' [cs' [Hb H]]].
      exists st', cs'. auto.
  - intro H.
    eapply repeat_loop_sound; [|exact H].
    intros st0 cs0 k0 x0. apply IHa.
  - intro H. apply IHa in H. destruct H as [st' [cs1 [Ha H]]].
    eexists st', _. split; [|exact H]. exists cs1. auto.
  - destruct (prev st) eqn:E; [discriminate|]. intro H. exists st, cs. auto.
  - destruct (rest st) eqn:E; [|discriminate]. intro H. exists st, cs. auto.
  - destruct (xorb _ _) eqn:E; [|discriminate]. intro H. exists st, cs. auto.
  - destruct (run ci a st cs _); [discriminate|]. intro H. exists st, cs. auto.
  - destruct (prev st); [|intro H; exists st, cs; auto].
    destruct (run ci a _ cs _); [discriminate|]. intro H. exists st, cs. auto.
Qed.

Lemma exec_from_sound (ci : bool) (r : regex) (s : jstring) :
  forall p pv m,
    exec_from ci r p pv s = Some m ->
    exists st cs', matches ci r st [] (after m) cs' /\ groups m = cs'.
Proof.
  induction s as [|c s IH]; intros p pv m; cbn [exec_from].
  - destruct (match_here ci r (MState p pv [])) as [m'|] eqn:E; [|discriminate].
    intro H. inversion H; subst m'. unfold match_here in E.
    apply run_sound in E. destruct E as [st' [cs' [Hm E]]].
    inversion E; subst m. cbn [after groups]. eauto.
  - destruct (match_here ci r (MState p pv (c :: s))) as [m'|] eqn:E.
    + intro H. inversion H; subst m'. unfold match_here in E.
      apply run_sound in E. destruct E as [st' [cs' [Hm E]]].
      inversion E; subst m. cbn [after groups]. eauto.
    + apply IH.
Qed.

(** *** The turns given to the loops are enough *)

Lemma reach_refl (st : mstate) : reach st st.
Proof. unfold reach. lia. Qed.

Lemma reach_trans (a b c : mstate) : reach a b -> reach b c -> reach a c.
Proof. unfold reach. lia. Qed.

Lemma reach_step (st : mstate) (c : N) (s' : jstring) :
  rest st = c :: s' -> reach st (step st c s').
Proof. unfold reach, step. intro H. rewrite H. simpl. lia. Qed.

Section LoopFuel.
Variable R : Type.
Variable body : mstate -> captures -> (mstate -> captures -> option R) -> option R.
Hypothesis body_ext :
  forall st cs k1 k2,
    (forall st' cs', reach st st' -> k1 st' cs' = k2 st' cs') ->
    body st cs k1 = body st cs k2.
Variable mn : nat.
Variable mx : option nat.
Variable greedy : bool.
Variable inner : list nat.

(** The loop calls its continuation on later states only. *)
Lemma repeat_loop_ext (k1 k2 : mstate -> captures -> option R) (fuel : nat) :
  forall cnt st cs,
    (forall st' cs', reach st st' -> k1 st' cs' = k2 st' cs') ->
    repeat_loop body mn mx greedy inner k1 fuel cnt st cs
    = repeat_loop body mn mx greedy inner k2 fuel cnt st cs.
Proof.
  induction fuel as [|fuel IH]; intros cnt st cs Hk; cbn [repeat_loop].
  - rewrite (Hk st cs (reach_refl st)). reflexivity.
  - rewrite (Hk st cs (reach_refl st)).
    assert (E : body st (uncapture inner cs)
                     (fun st' cs' =>
                        if Nat.leb mn cnt && Nat.eqb (pos st') (pos st) then None
                        else repeat_loop body mn mx greedy inner k1 fuel (S cnt) st' cs')
                = body st (uncapture inner cs)
                       (fun st' cs' =>
                          if Nat.leb mn cnt && Nat.eqb (pos st') (pos st) then None
                          else repeat_loop body mn mx greedy inner k2 fuel (S cnt) st' cs')).
    { apply body_ext. intros st' cs' Hr.
      destruct (Nat.leb mn cnt && Nat.eqb (pos st') (pos st)); [reflexivity|].
      apply IH. intros st'' cs'' Hr'. apply Hk. exact (reach_trans Hr Hr'). }
    rewrite E. reflexivity.
Qed.

Variable k : mstate -> captures -> option R.

(** Once the loop has as many turns as the minimum still owed plus the
    code units left, further turns change nothing. *)
Lemma repeat_loop_fuel (fuel1 : nat) :
  forall fuel2 cnt st cs,
    (mn - cnt + List.length (rest st) < fuel1)%nat ->
    (mn - cnt + List.length (rest st) < fuel2)%nat ->
    repeat_loop body mn mx greedy inner k fuel1 cnt st cs
    = repeat_loop body mn mx greedy inner k fuel2 cnt st cs.
Proof.
  induction fuel1 as [|fuel1 IH]; intros fuel2 cnt st cs H1 H2; [lia|].
  destruct fuel2 as [|fuel2]; [lia|].
  cbn [repeat_loop].
  assert (E : body st (uncapture inner cs)
                   (fun st' cs' =>
                      if Nat.leb mn cnt && Nat.eqb (pos st') (pos st) then None
                      else repeat_loop body mn mx greedy inner k fuel1 (S cnt) st' cs')
              = body st (uncapture inner cs)
                     (fun st' cs' =>
                        if Nat.leb mn cnt && Nat.eqb (pos st') (pos st) then None
                        else repeat_loop body mn mx greedy inner k fuel2 (S cnt) st' cs')).
  { apply body_ext. intros st' cs' [Hp Hl].
    destruct (Nat.leb mn cnt) eqn:Em; cbn [andb].
    - apply Nat.leb_le in Em.
      destruct (Nat.eqb (pos st') (pos st)) eqn:Ep; [reflexivity|].
      apply Nat.eqb_neq in Ep. apply IH; lia.
    - apply Nat.leb_gt in Em. apply IH; lia. }
  rewrite E. reflexivity.
Qed.
End LoopFuel.

(** The matcher calls its continuation on later states only. *)
Lemma run_ext (ci : bool) (r : regex) :
  forall (R : Type) st cs (k1 k2 : mstate -> captures -> option R),
    (forall st' cs', reach st st' -> k1 st' cs' = k2 st' cs') ->
    run ci r st cs k1 = run ci r st cs k2.
Proof.
  induction r as [| |p| |neg items|a IHa b IHb|a IHa b IHb|a IHa mn mx greedy
                  |n a IHa| | | |a IHa|a IHa];
    intros R st cs k1 k2 Hk; cbn [run].
  - apply Hk. apply reach_refl.
  - reflexivity.
  - destruct (rest st) as [|c s'] eqn:E; [reflexivity|].
    destruct (char_eq ci p c); [|reflexivity]. apply Hk. exact (reach_step st E).
  - destruct (rest st) as [|c s'] eqn:E; [reflexivity|].
    destruct (JS.isLineTerminator c); [reflexivity|]. apply Hk. exact (reach_step st E).
  - destruct (rest st) as [|c s'] eqn:E; [reflexivity|].
    destruct (xorb neg (class_has ci items c)); [|reflexivity].
    apply Hk. exact (reach_step st E).
  - apply IHa. intros st1 cs1 H1. apply IHb. intros st2 cs2 H2.
    apply Hk. exact (reach_trans H1 H2).
  - rewrite (IHa R st cs k1 k2 Hk), (IHb R st cs k1 k2 Hk). reflexivity.
  - apply repeat_loop_ext; [|exact Hk].
    intros st0 cs0 j1 j2. apply IHa.
  - apply IHa. intros st1 cs1 H1. apply Hk. exact H1.
  - rewrite (Hk st cs (reach_refl st)). reflexivity.
  - rewrite (Hk st cs (reach_refl st)). reflexivity.
  - rewrite (Hk st cs (reach_refl st)). reflexivity.
  - rewrite (Hk st cs (reach_refl st)). reflexivity.
  - rewrite (Hk st cs (reach_refl st)). reflexivity.
Qed.

(** The turns given to a quantified term are enough: with more of them the
    matcher returns the same. *)
Lemma repeat_fuel_enough (ci : bool) (a : regex) (mn : nat) (mx : option nat)
      (greedy : bool) (R : Type) (k : mstate -> captures -> option R)
      (fuel : nat) (st : mstate) (cs : captures) :
  (S (mn + List.length (rest st)) <= fuel)%nat ->
  repeat_loop (run ci a (R:=R)) mn mx greedy (groups_in a) k fuel O st cs
  = run ci (RRep a mn mx greedy) st cs k.
Proof.
  intro H. cbn [run]. apply repeat_loop_fuel; [|lia|lia].
  intros st0 cs0 j1 j2. apply run_ext.
Qed.

Lemma iterates_reach (P : mstate -> captures -> mstate -> captures -> Prop)
      (inner : list nat) (mn : nat) (mx : option nat) :
  (forall st cs st1 cs1, P st cs st1 cs1 -> reach st st1) ->
  forall cnt st cs st' cs',
    iterates P inner mn mx cnt st cs st' cs' -> reach st st'.
Proof.
  intros HP cnt st cs st' cs' H.
  induction H as [cnt st cs Hmn|cnt st cs st1 cs1 st' cs' Hr Hb Hi IH].
  - apply reach_refl.
  - exact (reach_trans (HP _ _ _ _ Hb) IH).
Qed.

(** A match ends at or after the state it started from. *)
Lemma matches_reach (ci : bool) (r : regex) :
  forall st cs st' cs', matches ci r st cs st' cs' -> reach st st'.
Proof.
  induction r as [| |p| |neg items|a IHa b IHb|a IHa b IHb|a IHa mn mx greedy
                  |n a IHa| | | |a IHa|a IHa];
    intros st cs st' cs'; cbn [matches].
  - intros [H _]. subst. apply reach_refl.
  - intros [].
  - intros [c [s' [Hr [_ [H _]]]]]. subst. exact (reach_step st Hr).
  - intros [c [s' [Hr [_ [H _]]]]]. subst. exact (reach_step st Hr).
  - intros [c [s' [Hr [_ [H _]]]]]. subst. exact (reach_step st Hr).
  - intros [st1 [cs1 [Ha Hb]]]. exact (reach_trans (IHa _ _ _ _ Ha) (IHb _ _ _ _ Hb)).
  - intros [H|H]; [exact (IHa _ _ _ _ H)|exact (IHb _ _ _ _ H)].
  - apply iterates_reach. exact IHa.
  - intros [cs1 [H _]]. exact (IHa _ _ _ _ H).
  - intros [_ [H _]]. subst. apply reach_refl.
  - intros [_ [H _]]. subst. apply reach_refl.
  - intros [_ [H _]]. subst. apply reach_refl.
  - intros [H _]. subst. apply reach_refl.
  - intros [H _]. subst. apply reach_refl.
Qed.

(** Where a match found by [exec_from] starts and ends. *)
Lemma exec_from_reach (ci : bool) (r : regex) (s : jstring) :
  forall p pv m,
    exec_from ci r p pv s = Some m ->
    exists st0,
      reach (MState p pv s) st0 /\ reach st0 (after m)
      /\ matched m = firstn (pos (after m) - pos st0) (rest st0).
Proof.
  induction s as [|c s IH]; intros p pv m; cbn [exec_from].
  - destruct (match_here ci r (MState p pv [])) as [m'|] eqn:E; [|discriminate].
    intro H. inversion H; subst m'. unfold match_here in E.
    apply run_sound in E. destruct E as [st' [cs' [Hm E]]].
    inversion E; subst m. cbn [after matched].
    exists (MState p pv []). split; [apply reach_refl|].
    split; [exact (matches_reach _ _ _ _ _ _ Hm)|reflexivity].
  - destruct (match_here ci r (MState p pv (c :: s))) as [m'|] eqn:E.
    + intro H. inversion H; subst m'. unfold match_here in E.
      apply run_sound in E. destruct E as [st' [cs' [Hm E]]].
      inversion E; subst m. cbn [after matched].
      exists (MState p pv (c :: s)). split; [apply reach_refl|].
      split; [exact (matches_reach _ _ _ _ _ _ Hm)|reflexivity].
    + intro H. destruct (IH _ _ _ H) as [st0 [H0 H1]].
      exists st0. split; [|exact H1].
      apply (@reach_trans _ (MState (S p) (Some c) s)); [|exact H0].
      unfold reach. simpl. lia.
Qed.

(** Once the walk over the matches has more turns than code units are
    left, further turns change nothing. *)
Lemma matchAll_from_fuel (re : regexp) (fuel1 : nat) :
  forall fuel2 st,
    (List.length (rest st) < fuel1)%nat ->
    (List.length (rest st) < fuel2)%nat ->
    matchAll_from fuel1 re st = matchAll_from fuel2 re st.
Proof.
  induction fuel1 as [|fuel1 IH]; intros fuel2 st H1 H2; [lia|].
  destruct fuel2 as [|fuel2]; [lia|].
  cbn [matchAll_from].
  destruct (exec_from (ignoreCase re) (body re) (pos st) (prev st) (rest st))
    as [m|] eqn:E; [|reflexivity].
  destruct (exec_from_reach _ _ _ _ _ E) as [st0 [[Hp0 Hl0] [[Hp1 Hl1] Hm]]].
  cbn [pos rest] in Hp0, Hl0.
  f_equal.
  destruct (Nat.eqb (List.length (matched m)) 0) eqn:Ez.
  - destruct (rest (after m)) as [|c s'] eqn:Er; [reflexivity|].
    cbn [List.length] in Hl1. apply IH; unfold step; cbn [rest]; lia.
  - apply Nat.eqb_neq in Ez. rewrite Hm, length_firstn in Ez.
    apply IH; lia.
Qed.

Lemma matchAll_fuel_enough (re : regexp) (s : jstring) (fuel : nat) :
  (S (List.length s) <= fuel)%nat ->
  matchAll_from fuel re (origin s) = matchAll re s.
Proof.
  intro H. unfold matchAll. apply matchAll_from_fuel; unfold origin; cbn [rest]; lia.
Qed.

(** *** The capture of the phone pattern *)

(** Folding leaves every code unit below the letters as it is. *)
Lemma canonicalize_low (c : N) :
  (canonicalize c < 65)%N -> canonicalize c = c.
Proof.
  unfold canonicalize, JS.upperUnit, JS.in_range.
  split_ifs; bool_hyps; intro Hlow; try reflexivity; try lia.
Qed.

Lemma char_eq_plus (c : N) : char_eq true 43 c = true -> c = 43%N.
Proof.
  unfold char_eq. change (canonicalize 43) with 43%N.
  intro H. apply N.eqb_eq in H.
  rewrite <- (@canonicalize_low c); [symmetry; exact H|].
  rewrite <- H. reflexivity.
Qed.

Lemma uncanonical_high (u : N) : forallb (fun x => (65 <=? x)%N) (uncanonical u) = true.
Proof.
  unfold uncanonical, JS.in_range.
  split_ifs; bool_hyps; cbn [forallb]; try reflexivity;
    rewrite andb_true_r; apply N.leb_le; lia.
Qed.

Lemma digit_class (c : N) : class_has true [CDigit] c = true -> JS.isDigit c = true.
Proof.
  unfold class_has. cbn [existsb item_has andb]. cbv zeta.
  rewrite orb_false_r.
  destruct (JS.isDigit c) eqn:Ec; [reflexivity|]. cbn [orb].
  intro H. apply orb_true_iff in H. destruct H as [H|H].
  - assert (X : canonicalize c = c).
    { apply canonicalize_low. unfold JS.isDigit, JS.in_range in H. bool_hyps.
      apply N.le_lt_trans with 57%N; [assumption|reflexivity]. }
    rewrite X in H. congruence.
  - exfalso. pose proof (uncanonical_high (canonicalize c)) as X.
    induction (uncanonical (canonicalize c)) as [|y l IH]; [discriminate|].
    cbn [existsb forallb] in *. apply andb_true_iff in X. destruct X as [Xy Xl].
    apply orb_true_iff in H. destruct H as [H|H]; [|exact (IH H Xl)].
    cbn [item_has] in H. unfold JS.isDigit, JS.in_range in H. bool_hyps. lia.
Qed.

(** The text consumed by the iterations of a term that takes one code unit
    at a time. *)
Section UnitIterations.
Variable P : mstate -> captures -> mstate -> captures -> Prop.
Variable Q : N -> Prop.
Hypothesis P_unit :
  forall st cs st1 cs1,
    P st cs st1 cs1 -> exists c s', rest st = c :: s' /\ Q c /\ st1 = step st c s'.
Variable inner : list nat.
Variable mn : nat.
Variable mx : option nat.

Lemma iterates_units cnt st cs st' cs' :
  iterates P inner mn mx cnt st cs st' cs' ->
  exists ds,
    rest st = ds ++ rest st'
    /\ pos st' = (pos st + List.length ds)%nat
    /\ Forall Q ds
    /\ (mn <= cnt + List.length ds)%nat
    /\ (forall M, mx = Some M -> (cnt <= M)%nat -> (cnt + List.length ds <= M)%nat).
Proof.
  induction 1 as [cnt st cs Hmn|cnt st cs st1 cs1 st' cs' Hr HP Hi IH].
  - exists []. cbn [app List.length]. repeat split; try lia; auto.
  - destruct (P_unit HP) as [c [s' [Hrest [Hq Hst1]]]].
    destruct IH as [ds [Hds [Hpos [Hall [Hmin Hmax]]]]].
    subst st1. cbn [step rest pos] in *.
    exists (c :: ds). cbn [app List.length].
    split; [rewrite Hrest, Hds; reflexivity|].
    split; [lia|].
    split; [constructor; assumption|].
    split; [lia|].
    intros M HM Hle. subst mx. cbn [reached] in Hr.
    apply Nat.leb_gt in Hr. specialize (Hmax M eq_refl). lia.
Qed.
End UnitIterations.

(** The phone pattern: a label, a gap, the capturing group and the
    lookahead. *)
Lemma phonePattern_shape :
  exists label gap tail,
    phonePattern
    = RegExp (RSeq label (RSeq gap (RSeq (RGroup 1 phoneGroup) (RNotAhead tail)))) true.
Proof. vm_compute. do 3 eexists. reflexivity. Qed.

(** The text captured by the group of the phone pattern. *)
Lemma phoneGroup_text (st : mstate) (cs : captures) (st' : mstate) (cs' : captures) :
  matches true phoneGroup st cs st' cs' ->
  exists plus digits,
    firstn (pos st' - pos st) (rest st) = phoneCapture plus digits
    /\ forallb JS.isDigit digits = true
    /\ (10 <= List.length digits <= 15)%nat.
Proof.
  unfold phoneGroup. cbn [matches groups_in].
  intros [sta [csa [Hp Hd]]].
  apply (@iterates_units _ (fun c => c = 43%N)) in Hp.
  2:{ intros s0 c0 s1 c1 [c [s' [Hr [Hc [Hs _]]]]].
      exists c, s'. split; [exact Hr|]. split; [exact (@char_eq_plus c Hc)|exact Hs]. }
  apply (@iterates_units _ (fun c => JS.isDigit c = true)) in Hd.
  2:{ intros s0 c0 s1 c1 [c [s' [Hr [Hc [Hs _]]]]].
      exists c, s'. split; [exact Hr|]. split; [exact (@digit_class c Hc)|exact Hs]. }
  destruct Hp as [ps [Hps [Hpp [Hpq [_ Hpm]]]]].
  destruct Hd as [ds [Hds [Hdp [Hdq [Hdn Hdm]]]]].
  specialize (Hpm 1%nat eq_refl). specialize (Hdm 15%nat eq_refl).
  assert (Hplus : ps = [] \/ ps = [43%N]).
  { destruct ps as [|p ps]; [left; reflexivity|right].
    destruct ps; [|cbn [List.length] in Hpm; lia].
    inversion Hpq; subst. reflexivity. }
  exists (match ps with [] => false | _ => true end), ds.
  split.
  - rewrite Hps, Hds, Hdp, Hpp.
    replace (pos st + List.length ps + List.length ds - pos st)%nat
      with (List.length (ps ++ ds)) by (rewrite length_app; lia).
    rewrite app_assoc, firstn_app, Nat.sub_diag, firstn_all. cbn [firstn].
    rewrite app_nil_r.
    destruct Hplus; subst ps; reflexivity.
  - split; [|lia]. apply forallb_forall. intros x Hx.
    rewrite Forall_forall in Hdq. exact (Hdq x Hx).
Qed.

(** Group 1 of every match of the phone pattern is an optional plus sign
    followed by ten to fifteen digits. *)
Lemma phone_capture_shape (s : jstring) (m : rmatch) :
  exec phonePattern s = Some m ->
  exists plus digits,
    group 1 m = Some (phoneCapture plus digits)
    /\ forallb JS.isDigit digits = true
    /\ (10 <= List.length digits <= 15)%nat.
Proof.
  destruct phonePattern_shape as [label [gap [tail E]]].
  rewrite E. unfold exec. cbn [ignoreCase body].
  intro H. apply exec_from_sound in H.
  destruct H as [st [cs' [Hm Hg]]].
  cbn [matches] in Hm.
  destruct Hm as [st1 [cs1 [_ [st2 [cs2 [_ [st3 [cs3 [[cs4 [Hgrp Hcs3]] [Hst Hcs]]]]]]]]]].
  destruct (phoneGroup_text Hgrp) as [plus [digits [Htxt Hok]]].
  exists plus, digits. split; [|exact Hok].
  unfold group. rewrite Hg, Hcs, Hcs3. cbn [capture Nat.eqb]. rewrite Htxt. reflexivity.
Qed.

End RegexFacts.

(** C10: for every input the extracted phone is the capture of the phone
    pattern, an optional plus sign followed by ten to fifteen digits,
    which the cleaning leaves as it is, plus sign included; the length
    check counts the plus sign, so the capture is rejected exactly when it
    is a plus sign followed by fifteen digits: "+123456789012345" gives the
    empty phone and "+1234567890" is returned whole, eleven characters
    long. *)
Theorem phone_is_cleaned_capture (context : ExtractionContext) :
  match Regex.exec phonePattern (JS.join [newline] (lines context)) with
  | None => phone (extractPersonalInfo context) = []
  | Some phoneMatch =>
      exists plus digits,
        Regex.group 1 phoneMatch = Some (phoneCapture plus digits)
        /\ forallb JS.isDigit digits = true
        /\ (10 <= List.length digits <= 15)%nat
        /\ JS.trim (Regex.replaceAll (re "[\s.\-()]") [] (phoneCapture plus digits))
           = phoneCapture plus digits
        /\ phone (extractPersonalInfo context)
           = if plus && Nat.eqb (List.length digits) 15 then []
             else phoneCapture plus digits
  end
  /\ phoneOf plusFifteen = []
  /\ phoneOf plusTen = plusTen
  /\ List.length (phoneOf plusTen) = 11%nat.
Proof.
  split.
  - change (phone (extractPersonalInfo context))
      with (cleanPhoneOf (Regex.exec phonePattern (JS.join [newline] (lines context)))).
    destruct (Regex.exec phonePattern (JS.join [newline] (lines context))) as [m|] eqn:E.
    + destruct (RegexFacts.phone_capture_shape _ E) as [plus [digits [Hg [Hd Hl]]]].
      exists plus, digits.
      split; [exact Hg|]. split; [exact Hd|]. split; [exact Hl|].
      split.
      * apply phoneCapture_clean; [exact Hd|].
        destruct digits; [cbn [List.length] in Hl; lia|discriminate].
      * exact (cleanPhoneOf_capture m plus digits Hg Hd Hl).
    + reflexivity.
  - refine (conj _ (conj _ _)); vm_compute; reflexivity.
Qed.
